(** * A session-guarded product catalog: the Flask/SQLAlchemy service

    The development follows the three source files.

    - [models/db_model.py]: the [users] and [products] tables and the
      functions [check_user], [get_products], [get_product_by_id],
      [add_product] and [delete_product].
    - [routes/product_routes.py]: the decorator [require_auth] and the four
      handlers of the [/api] blueprint.
    - [index.py]: [index], [login], [logout] and [dashboard].

    Tables are lists of rows in scan order, the Flask session is a finite map
    from keys to values, a request body is a JSON value, and a Python
    exception is an explicit result.  Integers are unbounded, as Python's
    are.  The functions of [db_model] and the handlers come in two layers.
    The first takes the statements as they run on tables that exist, with
    the integers as given.  The second, [Server], puts them behind the
    driver, which refuses an integer parameter outside the signed 64-bit
    range with [OverflowError], and behind [initialize_database], which
    the application runs before each request.  A handler also records
    which functions of [db_model] it called, so that "nothing was run" can
    be stated. *)

From stdpp Require Import base option list sorting gmap strings pretty.
From Stdlib Require Import ZArith Lia Ascii.

Local Open Scope Z_scope.
Set Warnings "-register-all".

(** ** What the Python runtime and the database driver provide

    [float] is Python's floating-point type.  [float_of_str s] is [float(s)]
    on a string, [None] when it raises [ValueError]; [float_of_int n] is
    [float(n)] on an integer, [None] when it raises [OverflowError];
    [float_bool x] is the truth value of [x]; [float_isnan x] holds of the
    values the store keeps as NULL. *)
Class PyFloat (float : Type) := {
  float_of_str : string → option float;
  float_of_int : Z → option float;
  float_bool : float → bool;
  float_isnan : float → bool
}.

(** Python exceptions that the handlers can meet. *)
Inductive exn :=
  | TypeError | ValueError | OverflowError | ZeroDivisionError
  | KeyError | AttributeError | IntegrityError | InterfaceError.

(** The outcome of evaluating a Python expression. *)
Inductive res (A : Type) :=
  | Ret (a : A)
  | Raise (e : exn).
Arguments Ret {A} a.
Arguments Raise {A} e.

(** Sequencing: an exception ends the evaluation. *)
#[global] Instance res_bind : MBind res := λ A B k r,
  match r with
  | Ret a => k a
  | Raise e => Raise e
  end.

(** [s in t] on two Python strings: [s] occurs in [t]. *)
Fixpoint str_contains (s t : string) : bool :=
  String.prefix s t ||
  match t with
  | EmptyString => false
  | String _ t' => str_contains s t'
  end.

(** A string with its letters A to Z in lower case. *)
Definition ascii_lower (c : ascii) : ascii :=
  let n := Ascii.N_of_ascii c in
  if ((65 <=? n) && (n <=? 90))%N then Ascii.ascii_of_N (n + 32) else c.

Fixpoint str_lower (s : string) : string :=
  match s with
  | EmptyString => EmptyString
  | String c s' => String (ascii_lower c) (str_lower s')
  end.

(** [a // b] on Python integers. *)
Definition py_floordiv (a b : Z) : res Z :=
  if b =? 0 then Raise ZeroDivisionError else Ret (a / b).

Section Catalog.

Context {float : Type} `{PyFloat float}.

(** ** JSON values, as [request.get_json()] returns them *)
Inductive json :=
  | JNull
  | JBool (b : bool)
  | JInt (n : Z)
  | JFloat (x : float)
  | JStr (s : string)
  | JArr (l : list json)
  | JObj (kvs : list (string * json)).

(** The value under key [k] of a dict. *)
Fixpoint dict_lookup (k : string) (kvs : list (string * json)) : option json :=
  match kvs with
  | [] => None
  | (k', v) :: kvs' => if String.eqb k' k then Some v else dict_lookup k kvs'
  end.

Definition is_str (k : string) (v : json) : bool :=
  match v with
  | JStr s => String.eqb s k
  | _ => false
  end.

(** [bool(v)]: None, False, zero and the empty containers are false. *)
Definition py_bool (v : json) : bool :=
  match v with
  | JNull => false
  | JBool b => b
  | JInt n => negb (n =? 0)
  | JFloat x => float_bool x
  | JStr s => negb (String.eqb s "")
  | JArr l => match l with [] => false | _ => true end
  | JObj kvs => match kvs with [] => false | _ => true end
  end.

(** [k in v] for a string [k]: key of a dict, element of a list, substring of
    a string; the other values are not containers. *)
Definition py_in (k : string) (v : json) : res bool :=
  match v with
  | JObj kvs => Ret (bool_decide (is_Some (dict_lookup k kvs)))
  | JArr l => Ret (existsb (is_str k) l)
  | JStr s => Ret (str_contains k s)
  | _ => Raise TypeError
  end.

(** [v[k]] for a string [k]. *)
Definition py_getitem (v : json) (k : string) : res json :=
  match v with
  | JObj kvs =>
      match dict_lookup k kvs with
      | Some x => Ret x
      | None => Raise KeyError
      end
  | _ => Raise TypeError
  end.

(** [v.get(k, d)]. *)
Definition py_get (v : json) (k : string) (d : json) : res json :=
  match v with
  | JObj kvs => Ret (default d (dict_lookup k kvs))
  | _ => Raise AttributeError
  end.

(** [float(v)]. *)
Definition py_float (v : json) : res float :=
  match v with
  | JFloat x => Ret x
  | JInt n =>
      match float_of_int n with
      | Some x => Ret x
      | None => Raise OverflowError
      end
  | JBool b =>
      match float_of_int (if b then 1 else 0) with
      | Some x => Ret x
      | None => Raise OverflowError
      end
  | JStr s =>
      match float_of_str s with
      | Some x => Ret x
      | None => Raise ValueError
      end
  | JNull | JArr _ | JObj _ => Raise TypeError
  end.

(** ** models/db_model.py

    The functions are given here as the statements they run, on tables
    that exist and with their integer parameters as given.
    [Server.get_products], [Server.get_product_by_id] and
    [Server.delete_product] put the driver in front of them. *)

(** A row of [users]. *)
Record User := {
  user_id : Z;
  user_username : string;
  user_password : string
}.

(** A row of [products]; [description] is the one nullable column.  The
    dictionaries built by [get_products] and [get_product_by_id] have these
    four fields and are the same record. *)
Record Product := {
  prod_id : Z;
  prod_name : string;
  prod_description : option string;
  prod_price : float
}.

Record DB := {
  users : list User;
  products : list Product
}.

(** What a text column holds when the driver is handed a value that is
    neither a string nor None; [None] when the statement fails. *)
Variable text_of_other : json → option string.

(** The value a text column takes from a Python value. *)
Definition bind_text (v : json) : res (option string) :=
  match v with
  | JNull => Ret None
  | JStr s => Ret (Some s)
  | _ =>
      match text_of_other v with
      | Some s => Ret (Some s)
      | None => Raise InterfaceError
      end
  end.

Definition user_matches (username password : string) (u : User) : bool :=
  String.eqb (user_username u) username && String.eqb (user_password u) password.

Definition check_user (db : DB) (username password : string) : option Z :=
  match find (user_matches username password) (users db) with
  | Some user => Some (user_id user)
  | None => None
  end.

(** [OFFSET n]: a negative offset skips nothing. *)
Definition sql_offset {A} (n : Z) (rows : list A) : list A :=
  drop (Z.to_nat n) rows.

(** [LIMIT n]: a negative limit is no limit. *)
Definition sql_limit {A} (n : Z) (rows : list A) : list A :=
  if n <? 0 then rows else take (Z.to_nat n) rows.

Definition get_products (db : DB) (page per_page : Z) : list Product * Z :=
  let offset := (page - 1) * per_page in
  let products_list := sql_limit per_page (sql_offset offset (products db)) in
  let total_products := Z.of_nat (length (products db)) in
  (products_list, total_products).

Definition has_id (product_id : Z) (p : Product) : bool :=
  prod_id p =? product_id.

Definition get_product_by_id (db : DB) (product_id : Z) : option Product :=
  find (has_id product_id) (products db).

(** The key the store gives to a new row: one more than the greatest key in
    the table, 1 in an empty table. *)
Definition next_id (rows : list Product) : Z :=
  foldr (λ p m, Z.max (prod_id p) m) 0 rows + 1.

(** [add_product]: [name] and [price] are NOT NULL columns; the row is
    committed under a fresh key, which is returned. *)
Definition add_product (db : DB) (name description : json) (price : float)
  : res (Z * DB) :=
  n ← bind_text name;
  d ← bind_text description;
  match n with
  | None => Raise IntegrityError
  | Some name_text =>
      if float_isnan price then Raise IntegrityError else
      let new_product :=
        {| prod_id := next_id (products db);
           prod_name := name_text;
           prod_description := d;
           prod_price := price |} in
      Ret (prod_id new_product,
           {| users := users db; products := products db ++ [new_product] |})
  end.

(** [delete_product]: the row found by key is deleted by its key. *)
Definition delete_product (db : DB) (product_id : Z) : Z * DB :=
  match find (has_id product_id) (products db) with
  | Some product_to_delete =>
      (1, {| users := users db;
             products :=
               filter (λ p, prod_id p ≠ prod_id product_to_delete) (products db) |})
  | None => (0, db)
  end.

(** ** The HTTP surface: responses and the state a handler runs in *)

(** The body of a response: a JSON object with a [message], the listing
    with its pagination block, a product, the answer to a creation, a
    redirect to an endpoint, the two templates, and the page the framework
    sends when a handler lets an exception escape. *)
Inductive body :=
  | Message (message : string)
  | Listing (products_list : list Product)
            (total_items total_pages current_page per_page : Z)
  | ProductJson (p : Product)
  | Created (message : string) (new_id : Z) (name : json)
  | Redirect (endpoint : string)
  | LoginPage (message : option string)
  | DashboardPage (uid : Z)
  | ErrorPage (e : exn).

Definition Response : Type := body * Z.

(** [jsonify({'message': m}), status]. *)
Definition jsonify_message (m : string) (status : Z) : Response :=
  (Message m, status).

(** The functions of [db_model] a handler called, with their arguments. *)
Inductive call :=
  | CheckUser (username password : string)
  | GetProducts (page per_page : Z)
  | GetProductById (product_id : Z)
  | AddProduct (name description : json) (price : float)
  | DeleteProduct (product_id : Z).

(** What a request runs against: the client's session, the database, and
    the record of calls into [db_model], oldest first. *)
Record World := {
  w_session : gmap string Z;
  w_db : DB;
  w_calls : list call
}.

Definition called (c : call) (w : World) : World :=
  {| w_session := w_session w; w_db := w_db w; w_calls := w_calls w ++ [c] |}.

Definition set_db (d : DB) (w : World) : World :=
  {| w_session := w_session w; w_db := d; w_calls := w_calls w |}.

Definition set_session (s : gmap string Z) (w : World) : World :=
  {| w_session := s; w_db := w_db w; w_calls := w_calls w |}.

Definition handler : Type := World → Response * World.

(** ** routes/product_routes.py *)

Definition unauthorized : Response :=
  jsonify_message "Acceso no autorizado. Por favor, inicie sesión." 401.

Definition require_auth (f : handler) : handler := λ w,
  match w_session w !! "user_id" with
  | None => (unauthorized, w)
  | Some _ => f w
  end.

(** [request.args.get(key, d, type=int)]: the argument read as an integer,
    the default when it is absent or is not one. *)
Definition args_get (arg : option Z) (d : Z) : Z := default d arg.

(** The [try] block of [list_products]. *)
Definition list_products_try (page_arg per_page_arg : option Z) (w : World)
  : res Response * World :=
  let page := args_get page_arg 1 in
  let per_page := args_get per_page_arg 5 in
  let '(products_list, total_products) := get_products (w_db w) page per_page in
  let w := called (GetProducts page per_page) w in
  if match products_list with [] => true | _ => false end && (page >? 1) then
    (Ret (jsonify_message "No hay productos en esta página." 404), w)
  else
    (total_pages ← py_floordiv (total_products + per_page - 1) per_page;
     Ret (Listing products_list total_products total_pages page per_page, 200),
     w).

Definition list_products (page_arg per_page_arg : option Z) : handler := λ w,
  match list_products_try page_arg per_page_arg w with
  | (Ret r, w) => (r, w)
  | (Raise _, w) =>
      (jsonify_message "Error interno del servidor al listar productos." 500, w)
  end.

Definition get_single_product (product_id : Z) : handler := λ w,
  let product := get_product_by_id (w_db w) product_id in
  let w := called (GetProductById product_id) w in
  match product with
  | Some p => ((ProductJson p, 200), w)
  | None =>
      (jsonify_message
         ("Producto con ID " +:+ pretty product_id +:+ " no encontrado.") 404, w)
  end.

(** [not data or 'name' not in data or 'price' not in data], evaluated
    left to right. *)
Definition fields_missing (data : json) : res bool :=
  if negb (py_bool data) then Ret true else
  has_name ← py_in "name" data;
  if negb has_name then Ret true else
  has_price ← py_in "price" data;
  Ret (negb has_price).

(** The [try] block of [add_new_product]. *)
Definition add_new_product_try (data : json) (w : World)
  : res Response * World :=
  let fields :=
    name ← py_getitem data "name";
    description ← py_get data "description" (JStr "");
    raw_price ← py_getitem data "price";
    price ← py_float raw_price;
    Ret (name, description, price) in
  match fields with
  | Raise e => (Raise e, w)
  | Ret (name, description, price) =>
      let w := called (AddProduct name description price) w in
      match add_product (w_db w) name description price with
      | Raise e => (Raise e, w)
      | Ret (new_id, d) =>
          (Ret (Created "Producto creado exitosamente." new_id name, 201),
           set_db d w)
      end
  end.

Definition add_new_product (data : json) : handler := λ w,
  match fields_missing data with
  | Raise e => ((ErrorPage e, 500), w)
  | Ret true =>
      (jsonify_message "Faltan campos obligatorios (name y price)." 400, w)
  | Ret false =>
      match add_new_product_try data w with
      | (Ret r, w) => (r, w)
      | (Raise ValueError, w) =>
          (jsonify_message "El precio debe ser un número válido." 400, w)
      | (Raise _, w) =>
          (jsonify_message "Error interno del servidor al crear producto." 500, w)
      end
  end.

Definition delete_single_product (product_id : Z) : handler := λ w,
  let '(deleted_count, d) := delete_product (w_db w) product_id in
  let w := set_db d (called (DeleteProduct product_id) w) in
  if deleted_count >? 0 then
    (jsonify_message
       ("Producto con ID " +:+ pretty product_id +:+ " eliminado exitosamente.")
       200, w)
  else
    (jsonify_message
       ("Producto con ID " +:+ pretty product_id +:+ " no encontrado para eliminar.")
       404, w).

(** The routes of the blueprint mounted at [/api]. *)
Inductive api_request :=
  | ApiList (page per_page : option Z)
  | ApiGet (product_id : Z)
  | ApiCreate (data : json)
  | ApiDelete (product_id : Z).

(** The handler a route runs without its guard. *)
Definition api_logic (r : api_request) : handler :=
  match r with
  | ApiList page per_page => list_products page per_page
  | ApiGet product_id => get_single_product product_id
  | ApiCreate data => add_new_product data
  | ApiDelete product_id => delete_single_product product_id
  end.

Definition product_api (r : api_request) : handler :=
  require_auth (api_logic r).

(** ** index.py *)

Definition index : handler := λ w,
  match w_session w !! "user_id" with
  | Some _ => ((Redirect "dashboard", 302), w)
  | None => ((LoginPage None, 200), w)
  end.

(** [login] on a POST with the two form fields. *)
Definition login_post (username password : string) : handler := λ w,
  let uid := check_user (w_db w) username password in
  let w := called (CheckUser username password) w in
  match uid with
  | Some uid =>
      ((Redirect "dashboard", 302),
       set_session (<["user_id" := uid]> (w_session w)) w)
  | None =>
      ((LoginPage (Some "Credenciales incorrectas. Intente de nuevo."), 200), w)
  end.

(** [login] on a GET. *)
Definition login_get : handler := λ w, ((LoginPage None, 200), w).

Definition logout : handler := λ w,
  ((Redirect "index", 302), set_session (delete "user_id" (w_session w)) w).

Definition dashboard : handler := λ w,
  match w_session w !! "user_id" with
  | None => ((Redirect "login", 302), w)
  | Some uid => ((DashboardPage uid, 200), w)
  end.

Inductive request :=
  | ReqIndex
  | ReqLoginGet
  | ReqLoginPost (username password : string)
  | ReqLogout
  | ReqDashboard
  | ReqApi (r : api_request).

(** The view function a request is routed to.  [Server.app] runs the
    [before_request] hook first. *)
Definition app (r : request) : handler :=
  match r with
  | ReqIndex => index
  | ReqLoginGet => login_get
  | ReqLoginPost username password => login_post username password
  | ReqLogout => logout
  | ReqDashboard => dashboard
  | ReqApi r => product_api r
  end.

End Catalog.

(** ** The listing in the words of the specification *)

(** The window: skip [(page - 1) * per_page] rows, take at most
    [per_page]. *)
Definition window {A} (page per_page : Z) (l : list A) : list A :=
  take (Z.to_nat per_page) (drop (Z.to_nat ((page - 1) * per_page)) l).

(** The least integer not below [a / b], for [b > 0]. *)
Definition ceil_div (a b : Z) : Z :=
  a / b + (if a mod b =? 0 then 0 else 1).

Section Listing.

Context {float : Type}.

(** Rows in ascending order of their keys. *)
Definition ids_ascending (rows : list (@Product float)) : Prop :=
  StronglySorted Z.lt (prod_id <$> rows).

(** The listings of pages 1 to [n]. *)
Definition first_pages (d : @DB float) (per_page : Z) (n : nat)
  : list (list (@Product float)) :=
  (λ k, (get_products d (Z.of_nat k + 1) per_page).1) <$> seq 0 n.

(** The answer of a listing that succeeds: the window, the count of the
    whole table and the count of pages. *)
Definition listing_of (d : @DB float) (page per_page : Z) : @Response float :=
  let total := Z.of_nat (length (products d)) in
  (Listing (window page per_page (products d)) total
           (ceil_div total per_page) page per_page, 200).

End Listing.

(** ** Schema bootstrap: db_model.py and the [before_request] hook *)

Section Bootstrap.

Context {float : Type}.

(** The value of a floating-point literal of the source text. *)
Variable float_literal : string → float.

(** The database file: each of the two tables is there or is not. *)
Record Store := {
  users_table : option (list User);
  products_table : option (list (@Product float))
}.

(** [inspector.has_table(tbl)]: the store compares table names without
    regard to the case of the letters A to Z. *)
Definition has_table (s : Store) (tbl : string) : bool :=
  let name := str_lower tbl in
  if String.eqb name "users" then bool_decide (is_Some (users_table s))
  else if String.eqb name "products" then bool_decide (is_Some (products_table s))
  else false.

(** [is_db_model_created]: [tb_exists] starts true and is and-ed with the
    test of each table of the list. *)
Definition is_db_model_created (s : Store) (tables : list string) : bool :=
  foldl (λ tb_exists tbl, tb_exists && has_table s tbl) true tables.

(** [Base.metadata.create_all]: a missing table is created empty, a table
    that is there is left alone. *)
Definition create_all (s : Store) : @DB float :=
  {| users := default [] (users_table s);
     products := default [] (products_table s) |}.

(** The key of a new row of [users]. *)
Definition next_user_id (us : list User) : Z :=
  foldr (λ u m, Z.max (user_id u) m) 0 us + 1.

(** Name, description and price of the example products. *)
Definition products_data : list (string * string * float) :=
  [ ("Laptop Ultraligera", "13 pulgadas, 16GB RAM, SSD 512GB", float_literal "1200.00");
    ("Monitor 4K", "27 pulgadas, 60Hz, HDR", float_literal "450.50");
    ("Teclado Mecánico", "Switches Blue, Retroiluminación RGB", float_literal "85.99");
    ("Mouse Gaming", "Inalámbrico, 16000 DPI", float_literal "55.00");
    ("Webcam Full HD", "1080p a 30fps", float_literal "49.99");
    ("Disco Duro Externo", "2TB, USB 3.0", float_literal "75.00");
    ("Auriculares Inalámbricos", "Cancelación de ruido", float_literal "150.00") ].

(** [db.add_all]: the rows are inserted in the order of the list, each
    under the next key. *)
Definition add_all (rows : list (@Product float))
    (data : list (string * string * float)) : list (@Product float) :=
  foldl (λ rows '(n, d, pr),
           rows ++ [ {| prod_id := next_id rows; prod_name := n;
                        prod_description := Some d; prod_price := pr |} ])
        rows data.

Definition is_admin (u : User) : bool := String.eqb (user_username u) "admin".

Definition create_db_and_tables (s : Store) : Store :=
  let d := create_all s in
  let us :=
    match find is_admin (users d) with
    | None =>
        users d ++ [ {| user_id := next_user_id (users d);
                        user_username := "admin";
                        user_password := "password123" |} ]
    | Some _ => users d
    end in
  let ps :=
    if Z.of_nat (length (products d)) =? 0
    then add_all (products d) products_data
    else products d in
  {| users_table := Some us; products_table := Some ps |}.

(** The [before_request] hook of index.py. *)
Definition initialize_database (s : Store) : Store :=
  if negb (is_db_model_created s ["users"; "products"])
  then create_db_and_tables s
  else s.

(** The database the handlers see, when both tables are there. *)
Definition store_db (s : Store) : option (@DB float) :=
  match users_table s, products_table s with
  | Some us, Some ps => Some {| users := us; products := ps |}
  | _, _ => None
  end.

End Bootstrap.

(** ** Requests in sequence and redirects *)

Section Serving.

Context {float : Type} `{PyFloat float}.
Variable text_of_other : @json float → option string.

(** The state after a client's requests, served one after the other. *)
Definition run_requests (rs : list (@request float)) (w : World) : World :=
  foldl (λ w r, (app text_of_other r w).2) w rs.

(** A response body that is a redirect. *)
Definition is_redirect (b : @body float) : bool :=
  match b with
  | Redirect _ => true
  | _ => false
  end.

(** The request a client makes when it follows [redirect(url_for(e))]. *)
Definition endpoint_request (e : string) : option (@request float) :=
  if String.eqb e "index" then Some ReqIndex
  else if String.eqb e "login" then Some ReqLoginGet
  else if String.eqb e "dashboard" then Some ReqDashboard
  else None.

(** A client that follows a redirect once: the answer it ends with. *)
Definition follow_redirect (r : @request float) (w : World) : Response * World :=
  let '(resp, w') := app text_of_other r w in
  match resp.1 with
  | Redirect e =>
      match endpoint_request e with
      | Some r' => app text_of_other r' w'
      | None => (resp, w')
      end
  | _ => (resp, w')
  end.

End Serving.

(** ** The service as it runs: the driver and the [before_request] hook

    The functions above are the statements run on the tables, with the
    integers as given.  Between Python and the store stands the driver,
    which binds each integer parameter of a statement to a signed 64-bit
    integer and raises [OverflowError] for one that does not fit; and
    before every request the application runs [initialize_database].
    [Server] has the functions of [db_model] behind the driver, the
    handlers that call them, and the application with its hook. *)

(** The integers the store holds. *)
Definition int64_ok (n : Z) : bool :=
  (-9223372036854775808 <=? n) && (n <=? 9223372036854775807).

(** The driver binding an integer parameter. *)
Definition bind_int (n : Z) : res Z :=
  if int64_ok n then Ret n else Raise OverflowError.

Module Server.

Section Server.

Context {float : Type} `{PyFloat float}.
Variable text_of_other : @json float → option string.
Variable float_literal : string → float.

(** [get_products]: the offset and the limit are the two parameters of the
    paged query. *)
Definition get_products (db : @DB float) (page per_page : Z)
  : res (list (@Product float) * Z) :=
  let offset := (page - 1) * per_page in
  offset ← bind_int offset;
  limit ← bind_int per_page;
  let products_list := sql_limit limit (sql_offset offset (products db)) in
  let total_products := Z.of_nat (length (products db)) in
  Ret (products_list, total_products).

Definition get_product_by_id (db : @DB float) (product_id : Z)
  : res (option (@Product float)) :=
  key ← bind_int product_id;
  Ret (find (has_id key) (products db)).

Definition delete_product (db : @DB float) (product_id : Z)
  : res (Z * @DB float) :=
  key ← bind_int product_id;
  match find (has_id key) (products db) with
  | Some product_to_delete =>
      Ret (1, {| users := users db;
                 products :=
                   filter (λ p, prod_id p ≠ prod_id product_to_delete)
                          (products db) |})
  | None => Ret (0, db)
  end.

(** The [try] block of [list_products]. *)
Definition list_products_try (page_arg per_page_arg : option Z) (w : World)
  : res Response * World :=
  let page := args_get page_arg 1 in
  let per_page := args_get per_page_arg 5 in
  let listed := get_products (w_db w) page per_page in
  let w := called (GetProducts page per_page) w in
  match listed with
  | Raise e => (Raise e, w)
  | Ret (products_list, total_products) =>
      if match products_list with [] => true | _ => false end && (page >? 1) then
        (Ret (jsonify_message "No hay productos en esta página." 404), w)
      else
        (total_pages ← py_floordiv (total_products + per_page - 1) per_page;
         Ret (Listing products_list total_products total_pages page per_page, 200),
         w)
  end.

Definition list_products (page_arg per_page_arg : option Z) : handler := λ w,
  match list_products_try page_arg per_page_arg w with
  | (Ret r, w) => (r, w)
  | (Raise _, w) =>
      (jsonify_message "Error interno del servidor al listar productos." 500, w)
  end.

(** [get_single_product] has no [try]: an exception of the lookup escapes
    and the framework answers 500. *)
Definition get_single_product (product_id : Z) : handler := λ w,
  let product := get_product_by_id (w_db w) product_id in
  let w := called (GetProductById product_id) w in
  match product with
  | Raise e => ((ErrorPage e, 500), w)
  | Ret (Some p) => ((ProductJson p, 200), w)
  | Ret None =>
      (jsonify_message
         ("Producto con ID " +:+ pretty product_id +:+ " no encontrado.") 404, w)
  end.

(** [delete_single_product] has no [try] either. *)
Definition delete_single_product (product_id : Z) : handler := λ w,
  let deleted := delete_product (w_db w) product_id in
  let w := called (DeleteProduct product_id) w in
  match deleted with
  | Raise e => ((ErrorPage e, 500), w)
  | Ret (deleted_count, d) =>
      let w := set_db d w in
      if deleted_count >? 0 then
        (jsonify_message
           ("Producto con ID " +:+ pretty product_id +:+ " eliminado exitosamente.")
           200, w)
      else
        (jsonify_message
           ("Producto con ID " +:+ pretty product_id
              +:+ " no encontrado para eliminar.")
           404, w)
  end.

Definition api_logic (r : api_request) : handler :=
  match r with
  | ApiList page per_page => list_products page per_page
  | ApiGet product_id => get_single_product product_id
  | ApiCreate data => add_new_product text_of_other data
  | ApiDelete product_id => delete_single_product product_id
  end.

Definition product_api (r : api_request) : handler :=
  require_auth (api_logic r).

(** The view function a request is routed to. *)
Definition route (r : request) : handler :=
  match r with
  | ReqIndex => index
  | ReqLoginGet => login_get
  | ReqLoginPost username password => login_post username password
  | ReqLogout => logout
  | ReqDashboard => dashboard
  | ReqApi r => product_api r
  end.

(** What the application runs against: the client's session, the database
    file, and the record of calls into [db_model]. *)
Record State := {
  st_session : gmap string Z;
  st_store : @Store float;
  st_calls : list (@call float)
}.

(** The database file with the two tables of a database. *)
Definition store_of (d : @DB float) : @Store float :=
  {| users_table := Some (users d); products_table := Some (products d) |}.

(** The application on a request: the hook first, then the view function
    on the tables the hook left. *)
Definition app (r : request) (st : State) : Response * State :=
  let s := initialize_database float_literal (st_store st) in
  let '(resp, w) :=
    route r {| w_session := st_session st; w_db := create_all s;
               w_calls := st_calls st |} in
  (resp, {| st_session := w_session w; st_store := store_of (w_db w);
            st_calls := w_calls w |}).

(** The state after a client's requests, served one after the other. *)
Definition run_requests (rs : list request) (st : State) : State :=
  foldl (λ st r, (app r st).2) st rs.

End Server.

End Server.

(** A request to the blueprint whose integer parameters the store accepts:
    the limit and the offset of a listing, the key of a lookup or of a
    deletion. *)
Definition api_in_range {float : Type} (r : @api_request float) : bool :=
  match r with
  | ApiList page_arg per_page_arg =>
      let page := args_get page_arg 1 in
      let per_page := args_get per_page_arg 5 in
      int64_ok per_page && int64_ok ((page - 1) * per_page)
  | ApiGet product_id | ApiDelete product_id => int64_ok product_id
  | ApiCreate _ => true
  end.

(** ** A submitted description *)

(** The JSON value of a description that was sent: a string or null. *)
Definition description_json {float : Type} (o : option string) : @json float :=
  match o with
  | Some text => JStr text
  | None => JNull
  end.

(** The column of a description that was left out ([None]) or sent: the
    empty string when left out, else what was sent. *)
Definition stored_description (sent : option (option string)) : option string :=
  match sent with
  | None => Some ""
  | Some o => o
  end.

(** ** An instance of the runtime: exact decimals

    A number is [dec_num / 10 ^ dec_scale].  [dec_of_str] reads an optional
    minus sign, digits, and an optional point followed by digits; trailing
    zeros of the fraction are dropped.  No value is NaN.  The instance lets
    the model run on concrete requests.  It is not Python's [float]: it
    reads no exponent, no blanks around the number, no [nan] and no [inf],
    it converts every integer, and it rounds nothing.  The theorems are
    proved for every instance; only the runs below use this one, on
    numbers that both read alike. *)
Module Decimal.

Record dec := { dec_num : Z; dec_scale : nat }.

Definition digit_of (c : ascii) : option Z :=
  let n := Z.of_N (Ascii.N_of_ascii c) in
  if (48 <=? n) && (n <=? 57) then Some (n - 48) else None.

(** Reads digits after the point: [acc] is the number so far, [k] the count
    of fraction digits read. *)
Fixpoint read_fraction (acc : Z) (k : nat) (s : string) : option dec :=
  match s with
  | EmptyString => Some {| dec_num := acc; dec_scale := k |}
  | String c s' =>
      match digit_of c with
      | Some d => read_fraction (10 * acc + d) (S k) s'
      | None => None
      end
  end.

(** Reads the digits before the point; [seen] tells whether one was read. *)
Fixpoint read_integer (acc : Z) (seen : bool) (s : string) : option dec :=
  match s with
  | EmptyString =>
      if seen then Some {| dec_num := acc; dec_scale := 0 |} else None
  | String c s' =>
      match digit_of c with
      | Some d => read_integer (10 * acc + d) true s'
      | None =>
          if Ascii.eqb c "."%char && seen then read_fraction acc 0 s' else None
      end
  end.

Fixpoint normalize (n : Z) (k : nat) : dec :=
  match k with
  | O => {| dec_num := n; dec_scale := O |}
  | S k' =>
      if n mod 10 =? 0 then normalize (n / 10) k'
      else {| dec_num := n; dec_scale := k |}
  end.

Definition dec_of_str (s : string) : option dec :=
  let '(negative, digits) :=
    match s with
    | String "-"%char s' => (true, s')
    | _ => (false, s)
    end in
  match read_integer 0 false digits with
  | Some d =>
      Some (normalize (if negative : bool then - dec_num d else dec_num d)
                      (dec_scale d))
  | None => None
  end.

#[export] Instance dec_float : PyFloat dec := {|
  float_of_str := dec_of_str;
  float_of_int := λ n, Some {| dec_num := n; dec_scale := 0 |};
  float_bool := λ x, negb (dec_num x =? 0);
  float_isnan := λ _, false
|}.

(** A driver that writes integers and booleans bound to a text column in
    decimal.  It refuses the other values; the runs below bind none of
    them. *)
Definition driver_text (v : @json dec) : option string :=
  match v with
  | JInt n => Some (pretty n)
  | JBool b => Some (if b then "1" else "0")
  | _ => None
  end.

Definition mk_product (i : Z) (n d : string) (num : Z) (scale : nat)
  : @Product dec :=
  {| prod_id := i; prod_name := n; prod_description := Some d;
     prod_price := {| dec_num := num; dec_scale := scale |} |}.

Definition admin : User :=
  {| user_id := 1; user_username := "admin"; user_password := "password123" |}.

(** The rows [create_db_and_tables] inserts into empty tables. *)
Definition seed : @DB dec :=
  {| users := [admin];
     products :=
       [ mk_product 1 "Laptop Ultraligera" "13 pulgadas, 16GB RAM, SSD 512GB" 1200 0;
         mk_product 2 "Monitor 4K" "27 pulgadas, 60Hz, HDR" 4505 1;
         mk_product 3 "Teclado Mecánico" "Switches Blue, Retroiluminación RGB" 8599 2;
         mk_product 4 "Mouse Gaming" "Inalámbrico, 16000 DPI" 55 0;
         mk_product 5 "Webcam Full HD" "1080p a 30fps" 4999 2;
         mk_product 6 "Disco Duro Externo" "2TB, USB 3.0" 75 0;
         mk_product 7 "Auriculares Inalámbricos" "Cancelación de ruido" 150 0 ] |}.

(** A client without a session, and one logged in as the seed user. *)
Definition anonymous : @World dec :=
  {| w_session := ∅; w_db := seed; w_calls := [] |}.

Definition logged_in : @World dec :=
  {| w_session := {["user_id" := 1]}; w_db := seed; w_calls := [] |}.

(** The body of a creation request. *)
Definition pen : @json dec :=
  JObj [("name", JStr "Pen"); ("price", JStr "1.5")].

(** A literal is read as [float] reads its text. *)
Definition dec_literal (s : string) : dec :=
  default {| dec_num := 0; dec_scale := 0 |} (dec_of_str s).

(** The database file before the first request: no table yet. *)
Definition no_tables : @Store dec :=
  {| users_table := None; products_table := None |}.

(** A logged-in client of a catalog whose rows were all deleted. *)
Definition emptied : @World dec :=
  {| w_session := {["user_id" := 1]};
     w_db := {| users := [admin]; products := [] |};
     w_calls := [] |}.

(** A client without a session before the first request. *)
Definition first_visit : @Server.State dec :=
  {| Server.st_session := ∅; Server.st_store := no_tables;
     Server.st_calls := [] |}.

(** A client without a session once the tables hold the seed rows. *)
Definition seeded : @Server.State dec :=
  {| Server.st_session := ∅; Server.st_store := Server.store_of seed;
     Server.st_calls := [] |}.

(** A body whose name is a number. *)
Definition numbered : @json dec :=
  JObj [("name", JInt 123); ("price", JStr "1.5")].

End Decimal.

Example dec_of_str_1_5 :
  Decimal.dec_of_str "1.5" = Some {| Decimal.dec_num := 15; Decimal.dec_scale := 1 |}.
Proof. reflexivity. Qed.

Example dec_of_str_abc : Decimal.dec_of_str "abc" = None.
Proof. reflexivity. Qed.

(** * Properties *)

Section Properties.

Context {float : Type} `{PyFloat float}.
Variable text_of_other : @json float → option string.

Implicit Types (w : @World float) (d : @DB float) (p : @Product float).
Implicit Types (rows : list (@Product float)).

(** ** The tables *)

Lemma find_has_id_None rows i :
  find (has_id i) rows = None ↔ ∀ p, p ∈ rows → prod_id p ≠ i.
Proof.
  unfold has_id. induction rows as [|q rows IH]; simpl.
  - split; [intros _ p Hp; inversion Hp | done].
  - destruct (Z.eqb_spec (prod_id q) i) as [Heq|Hne].
    + split; [done|]. intros Hall. destruct (Hall q); [left | done].
    + rewrite IH. split.
      * intros Hall p Hp. inversion Hp; subst; auto.
      * intros Hall p Hp. apply Hall. by right.
Qed.

Lemma find_has_id_Some rows i p :
  find (has_id i) rows = Some p → p ∈ rows ∧ prod_id p = i.
Proof.
  unfold has_id. induction rows as [|q rows IH]; simpl; [done|].
  destruct (Z.eqb_spec (prod_id q) i) as [Heq|Hne].
  - intros [= <-]. split; [left | done].
  - intros Hf. destruct (IH Hf). split; [by right | done].
Qed.

Lemma filter_other_ids_find rows i :
  find (has_id i) (filter (λ p, prod_id p ≠ i) rows) = None.
Proof.
  apply find_has_id_None. intros p Hp.
  by apply list_elem_of_filter in Hp as [? _].
Qed.

Lemma filter_other_ids_absent rows i :
  (∀ p, p ∈ rows → prod_id p ≠ i) →
  filter (λ p, prod_id p ≠ i) rows = rows.
Proof.
  induction rows as [|q rows IH]; intros Hall; [done|].
  rewrite filter_cons_True by (apply Hall; left).
  f_equal. apply IH. intros p Hp. apply Hall. by right.
Qed.

(** What [delete_product] leaves in the table, found or not. *)
Lemma delete_product_products d i :
  products (delete_product d i).2 = filter (λ p, prod_id p ≠ i) (products d).
Proof.
  unfold delete_product. destruct (find _ _) as [q|] eqn:Hf; simpl.
  - apply find_has_id_Some in Hf as [_ ->]. done.
  - symmetry. apply filter_other_ids_absent. by apply find_has_id_None.
Qed.

Lemma delete_product_count d i :
  (delete_product d i).1 =
    match find (has_id i) (products d) with Some _ => 1 | None => 0 end.
Proof. unfold delete_product. by destruct (find _ _). Qed.

(** Keys below [next_id]. *)
Lemma next_id_above rows p : p ∈ rows → prod_id p < next_id rows.
Proof.
  unfold next_id. induction rows as [|q rows IH]; intros Hp; simpl.
  - inversion Hp.
  - inversion Hp; subst; [lia|]. specialize (IH ltac:(done)). lia.
Qed.

Lemma find_app_new rows p :
  find (has_id (prod_id p)) rows = None →
  find (has_id (prod_id p)) (rows ++ [p]) = Some p.
Proof.
  induction rows as [|q rows IH]; simpl.
  - intros _. unfold has_id. by rewrite Z.eqb_refl.
  - destruct (has_id (prod_id p) q); [done | exact IH].
Qed.

(** ** The session guard *)

Lemma require_auth_anonymous (f : @handler float) w :
  w_session w !! "user_id" = None → require_auth f w = (unauthorized, w).
Proof. intros Hs. unfold require_auth. by rewrite Hs. Qed.

Lemma require_auth_logged_in (f : @handler float) w uid :
  w_session w !! "user_id" = Some uid → require_auth f w = f w.
Proof. intros Hs. unfold require_auth. by rewrite Hs. Qed.

(** C1. Without [user_id] in the session, every route of the [/api]
    blueprint (listing, lookup, creation, deletion) answers 401 with the same
    message, whatever the route and its arguments; the database is as it was
    and no function of [db_model] has been called. *)
Theorem api_without_session_is_401 (r : api_request) w :
  w_session w !! "user_id" = None →
  product_api text_of_other r w =
    ((Message "Acceso no autorizado. Por favor, inicie sesión.", 401), w)
  ∧ w_db (product_api text_of_other r w).2 = w_db w
  ∧ w_calls (product_api text_of_other r w).2 = w_calls w.
Proof.
  intros Hs. unfold product_api.
  rewrite (require_auth_anonymous _ _ Hs). done.
Qed.

(** ** Logout *)

Lemma set_session_same w : set_session (w_session w) w = w.
Proof. by destruct w. Qed.

(** C8. After [logout] the session has no [user_id], so the dashboard sends
    the client to the login page and every [/api] route answers 401, with
    nothing else changed; on a session that had no [user_id], [logout]
    answers the same redirect and leaves the state as it was. *)
Theorem logout_ends_session w :
  let w' := (logout w).2 in
  (logout w).1 = (Redirect "index", 302)
  ∧ w_session w' !! "user_id" = None
  ∧ dashboard w' = ((Redirect "login", 302), w')
  ∧ (∀ r, product_api text_of_other r w' = (unauthorized, w'))
  ∧ (w_session w !! "user_id" = None → logout w = ((Redirect "index", 302), w))
  ∧ logout w' = ((Redirect "index", 302), w').
Proof.
  simpl.
  assert (Hgone : w_session (set_session (delete "user_id" (w_session w)) w)
                    !! "user_id" = None) by apply lookup_delete_eq.
  repeat split.
  - exact Hgone.
  - unfold dashboard. by rewrite Hgone.
  - intros r. by apply require_auth_anonymous.
  - intros Hs. unfold logout. by rewrite delete_id, set_session_same.
  - unfold logout. simpl. by rewrite delete_id by apply lookup_delete_eq.
Qed.

(** ** Deletion *)

(** C10. [delete_product] leaves the [users] table as it was and keeps, in
    their order, exactly the products whose key differs from the one given;
    when no row has that key the database is unchanged. *)
Theorem delete_product_frame d i :
  let d' := (delete_product d i).2 in
  users d' = users d
  ∧ products d' = filter (λ p, prod_id p ≠ i) (products d)
  ∧ (∀ p, prod_id p ≠ i → (p ∈ products d' ↔ p ∈ products d))
  ∧ ((∀ p, p ∈ products d → prod_id p ≠ i) → d' = d).
Proof.
  simpl. split; [|split; [|split]].
  - unfold delete_product. by destruct (find _ _).
  - apply delete_product_products.
  - intros p Hp. rewrite delete_product_products, list_elem_of_filter. tauto.
  - intros Hall. apply find_has_id_None in Hall.
    unfold delete_product. by rewrite Hall.
Qed.

(** The deletion handler on the tables: 200 exactly when a row has the
    key, nothing under the key afterwards, and 404 with the database
    unchanged when no row has it. *)
Lemma delete_single_product_cases w i :
  let r := delete_single_product i w in
  (r.1.2 = 200 ↔ ∃ p, p ∈ products (w_db w) ∧ prod_id p = i)
  ∧ get_product_by_id (w_db r.2) i = None
  ∧ ((∀ p, p ∈ products (w_db w) → prod_id p ≠ i) →
       (delete_product (w_db w) i).1 = 0 ∧ r.1.2 = 404 ∧ w_db r.2 = w_db w)
  ∧ (delete_single_product i r.2).1.2 = 404.
Proof.
  assert (Hgen : ∀ w0,
    let r := delete_single_product i w0 in
    (r.1.2 = 200 ↔ ∃ p, p ∈ products (w_db w0) ∧ prod_id p = i)
    ∧ get_product_by_id (w_db r.2) i = None
    ∧ ((∀ p, p ∈ products (w_db w0) → prod_id p ≠ i) →
         (delete_product (w_db w0) i).1 = 0 ∧ r.1.2 = 404 ∧ w_db r.2 = w_db w0)).
  { intros w0. simpl. unfold delete_single_product, get_product_by_id.
    pose proof (delete_product_products (w_db w0) i) as Hp.
    unfold delete_product in *.
    destruct (find (has_id i) (products (w_db w0))) as [q|] eqn:Hf; simpl in *.
    - split; [|split].
      + split; [|done]. intros _. exists q. by apply find_has_id_Some.
      + rewrite Hp. apply filter_other_ids_find.
      + intros Hall. apply find_has_id_Some in Hf as [Hq Hi]. by destruct (Hall q).
    - split; [|split].
      + split; [done|]. intros (p & Hp' & Hi).
        by destruct (proj1 (find_has_id_None _ _) Hf p).
      + done.
      + done. }
  simpl. destruct (Hgen w) as (H1 & H2 & H3).
  split; [exact H1 | split; [exact H2 | split; [exact H3 |]]].
  destruct (Hgen (delete_single_product i w).2) as (_ & _ & H4).
  apply H4. apply find_has_id_None. exact H2.
Qed.

(** ** Listing *)

Lemma StronglySorted_sublist {A} (R : relation A) (l k : list A) :
  sublist l k → StronglySorted R k → StronglySorted R l.
Proof.
  induction 1 as [|x l k Hs IH|x l k Hs IH]; intros Hk.
  - constructor.
  - apply StronglySorted_inv in Hk as [Hk Hx]. constructor; [by apply IH|].
    rewrite Forall_forall in Hx |- *. intros y Hy. apply Hx.
    by apply (elem_of_sublist l k).
  - apply StronglySorted_inv in Hk as [Hk _]. by apply IH.
Qed.

Lemma window_sublist {A} page per_page (l : list A) :
  sublist (window page per_page l) l.
Proof.
  unfold window. etrans; [apply sublist_take | apply sublist_drop].
Qed.

Lemma window_ascending page per_page rows :
  ids_ascending rows → ids_ascending (window page per_page rows).
Proof.
  unfold ids_ascending. apply StronglySorted_sublist.
  apply fmap_sublist, window_sublist.
Qed.

(** The two operations that change the table keep it in key order, so the
    order of insertion and the order of the keys are one order. *)
Lemma delete_product_ascending d i :
  ids_ascending (products d) → ids_ascending (products (delete_product d i).2).
Proof.
  rewrite delete_product_products. unfold ids_ascending.
  apply StronglySorted_sublist, fmap_sublist, sublist_filter.
Qed.

Lemma add_product_ascending d name description price i d' :
  add_product text_of_other d name description price = Ret (i, d') →
  ids_ascending (products d) → ids_ascending (products d').
Proof.
  unfold add_product, ids_ascending.
  destruct (bind_text _ name) as [[n|]|]; simpl; try done;
    destruct (bind_text _ description) as [dsc|]; simpl; try done.
  destruct (float_isnan price); [done|]. intros [= <- <-] Hs. simpl.
  rewrite fmap_app. apply StronglySorted_app_2; [| done | repeat constructor].
  intros a b Ha Hb. apply list_elem_of_fmap in Ha as (q & -> & Hq).
  apply list_elem_of_singleton in Hb as ->. simpl. by apply next_id_above.
Qed.

Lemma get_products_window d page per_page :
  0 ≤ per_page →
  get_products d page per_page =
    (window page per_page (products d), Z.of_nat (length (products d))).
Proof.
  intros Hpp. unfold get_products, sql_limit, sql_offset, window.
  destruct (Z.ltb_spec per_page 0); [lia | done].
Qed.

Lemma page_count_ceil (total per_page : Z) :
  1 ≤ per_page →
  py_floordiv (total + per_page - 1) per_page = Ret (ceil_div total per_page).
Proof.
  intros Hpp. unfold py_floordiv, ceil_div.
  destruct (Z.eqb_spec per_page 0); [lia|]. f_equal.
  pose proof (Z.div_mod total per_page ltac:(lia)) as Hdm.
  pose proof (Z.mod_pos_bound total per_page ltac:(lia)) as Hb.
  destruct (Z.eqb_spec (total mod per_page) 0) as [Hz|Hnz].
  - symmetry. rewrite Z.add_0_r.
    apply (Z.div_unique _ _ _ (per_page - 1)); lia.
  - symmetry.
    apply (Z.div_unique _ _ _ (total mod per_page - 1)); lia.
Qed.

Lemma find_list_products_logged_in w uid page_arg per_page_arg :
  w_session w !! "user_id" = Some uid →
  product_api text_of_other (ApiList page_arg per_page_arg) w =
    list_products page_arg per_page_arg w.
Proof. intros Hs. unfold product_api. by apply require_auth_logged_in with uid. Qed.

(** An argument left out is the default: page 1, five rows a page. *)
Lemma list_products_defaults page_arg per_page_arg w :
  list_products page_arg per_page_arg w =
    list_products (Some (args_get page_arg 1)) (Some (args_get per_page_arg 5)) w.
Proof. reflexivity. Qed.

(** What [list_products] answers for [per_page ≥ 1]. *)
Lemma list_products_cases w page per_page :
  1 ≤ per_page →
  (list_products (Some page) (Some per_page) w).1 =
    if bool_decide (window page per_page (products (w_db w)) = []) && (page >? 1)
    then jsonify_message "No hay productos en esta página." 404
    else listing_of (w_db w) page per_page.
Proof.
  intros Hpp. unfold list_products, list_products_try, args_get.
  change (default 1 (Some page)) with page.
  change (default 5 (Some per_page)) with per_page.
  rewrite get_products_window by lia.
  destruct (window page per_page (products (w_db w))) as [|q l] eqn:Hw; simpl.
  - destruct (page >? 1); simpl; [done|].
    rewrite page_count_ceil by done. simpl. unfold listing_of. by rewrite Hw.
  - rewrite page_count_ceil by done. simpl. unfold listing_of. by rewrite Hw.
Qed.

(** C9. A logged-in request for the first page with [per_page = 0] is passed
    to [get_products] as it is; the page count then divides by zero, and the
    answer is the 500 of the handler, not a listing. *)
Theorem list_per_page_zero w uid page_arg :
  w_session w !! "user_id" = Some uid →
  args_get page_arg 1 = 1 →
  let r := product_api text_of_other (ApiList page_arg (Some 0)) w in
  (list_products_try page_arg (Some 0) w).1 = Raise ZeroDivisionError
  ∧ w_calls r.2 = w_calls w ++ [GetProducts 1 0]
  ∧ r.1 = (Message "Error interno del servidor al listar productos.", 500)
  ∧ (∀ l a b c e, r.1 ≠ (Listing l a b c e, 200)).
Proof.
  intros Hs Hp. simpl. rewrite (find_list_products_logged_in _ _ _ _ Hs).
  unfold list_products, list_products_try. rewrite Hp. simpl.
  unfold get_products, sql_limit. simpl.
  repeat split; done.
Qed.

(** ** Login *)

Lemma user_matches_spec username password (u : User) :
  user_matches username password u = true ↔
  user_username u = username ∧ user_password u = password.
Proof.
  unfold user_matches. rewrite andb_true_iff, !String.eqb_eq. done.
Qed.

Lemma check_user_Some d username password uid :
  check_user d username password = Some uid →
  ∃ u, u ∈ users d ∧ user_username u = username
       ∧ user_password u = password ∧ user_id u = uid.
Proof.
  unfold check_user. destruct (find _ _) as [u|] eqn:Hf; [|done].
  intros [= <-]. apply find_some in Hf as [Hin Hm].
  apply user_matches_spec in Hm as [? ?].
  exists u. by rewrite list_elem_of_In.
Qed.

Lemma check_user_None d username password :
  check_user d username password = None ↔
  ∀ u, u ∈ users d →
       ¬ (user_username u = username ∧ user_password u = password).
Proof.
  unfold check_user. split.
  - destruct (find _ _) as [u|] eqn:Hf; [done|]. intros _ u Hu Hm.
    apply list_elem_of_In in Hu. pose proof (find_none _ _ Hf u Hu) as Hn.
    apply user_matches_spec in Hm. congruence.
  - intros Hall. destruct (find _ _) as [u|] eqn:Hf; [|done].
    apply find_some in Hf as [Hin Hm]. apply user_matches_spec in Hm.
    destruct (Hall u); [by apply list_elem_of_In | done].
Qed.

Lemma unique_username (l : list User) (u v : User) :
  NoDup (user_username <$> l) → u ∈ l → v ∈ l →
  user_username u = user_username v → u = v.
Proof.
  induction l as [|a l IH]; intros Hnd Hu Hv Heq; [inversion Hu|].
  rewrite fmap_cons in Hnd. apply NoDup_cons in Hnd as [Ha Hnd].
  assert (Hin : ∀ x, x ∈ l → user_username x ≠ user_username a).
  { intros x Hx Hxa. apply Ha. rewrite <- Hxa. apply list_elem_of_fmap. eauto. }
  apply elem_of_cons in Hu as [->|Hu]; apply elem_of_cons in Hv as [->|Hv].
  - done.
  - by destruct (Hin v Hv).
  - by destruct (Hin u Hu).
  - by apply IH.
Qed.

(** No handler of the blueprint answers 401 itself: only the guard does. *)
Lemma api_logic_not_401 (r : api_request) w :
  (api_logic text_of_other r w).1.2 ≠ 401.
Proof.
  destruct r as [pa ppa|i|data|i]; simpl.
  - unfold list_products, list_products_try.
    destruct (get_products _ _ _) as [l t].
    destruct (_ && _); simpl; [done|].
    by destruct (py_floordiv _ _).
  - unfold get_single_product. by destruct (get_product_by_id _ _).
  - unfold add_new_product.
    destruct (fields_missing data) as [[|]|]; simpl; try done.
    unfold add_new_product_try.
    destruct (mbind _ _) as [[[n dsc] x]|[]]; try done;
      destruct (add_product _ _ _ _ _) as [[i d']|[]]; done.
  - unfold delete_single_product.
    destruct (delete_product _ _) as [c d']. by destruct (c >? 0).
Qed.

(** C7. A pair that equals the username and the password of a stored user
    logs in: the answer is the redirect to the dashboard, the session holds
    that user's key under [user_id] (usernames being unique, as the table
    declares), the dashboard is shown and no [/api] route answers 401.  A
    pair that no stored user has on both fields gets one fixed answer,
    whichever field is wrong, and the session is as it was. *)
Theorem login_by_credentials w username password :
  let r := login_post username password w in
  (∀ u, u ∈ users (w_db w) → NoDup (user_username <$> users (w_db w)) →
        user_username u = username → user_password u = password →
        r.1 = (Redirect "dashboard", 302)
        ∧ w_session r.2 !! "user_id" = Some (user_id u)
        ∧ dashboard r.2 = ((DashboardPage (user_id u), 200), r.2)
        ∧ ∀ q, product_api text_of_other q r.2 = api_logic text_of_other q r.2
               ∧ (product_api text_of_other q r.2).1.2 ≠ 401)
  ∧ ((∀ u, u ∈ users (w_db w) →
           ¬ (user_username u = username ∧ user_password u = password)) →
        r.1 = (LoginPage (Some "Credenciales incorrectas. Intente de nuevo."), 200)
        ∧ w_session r.2 = w_session w
        ∧ w_db r.2 = w_db w).
Proof.
  cbv zeta. unfold login_post. split.
  - intros u Hu Hnd Hn Hp.
    destruct (check_user (w_db w) username password) as [uid|] eqn:Hc.
    + apply check_user_Some in Hc as (v & Hv & Hvn & Hvp & <-).
      assert (v = u) as -> by (apply (unique_username _ _ _ Hnd Hv Hu); congruence).
      assert (Hs : w_session
                (set_session (<["user_id":=user_id u]> (w_session (called (CheckUser username password) w)))
                   (called (CheckUser username password) w)) !! "user_id"
              = Some (user_id u)) by apply lookup_insert_eq.
      cbn [fst snd]. split; [done|]. split; [exact Hs|]. split.
      * unfold dashboard. by rewrite Hs.
      * intros q. unfold product_api.
        rewrite (require_auth_logged_in _ _ _ Hs).
        split; [done | apply api_logic_not_401].
    + destruct (proj1 (check_user_None _ _ _) Hc u Hu). done.
  - intros Hall. apply check_user_None in Hall. by rewrite Hall.
Qed.

(** ** Creation *)

Lemma fields_present kvs (n pr : json) :
  dict_lookup "name" kvs = Some n → dict_lookup "price" kvs = Some pr →
  fields_missing (JObj kvs) = Ret false.
Proof.
  intros Hn Hp. unfold fields_missing.
  assert (py_bool (JObj kvs) = true) as -> by (destruct kvs; done).
  simpl. by rewrite Hn, Hp.
Qed.

(** A body that is null, or an object without [name] or without [price],
    is answered 400 with the message about the missing fields. *)
Lemma create_missing_fields (data : json) w :
  data = JNull
  ∨ (∃ kvs, data = JObj kvs
       ∧ (dict_lookup "name" kvs = None ∨ dict_lookup "price" kvs = None)) →
  add_new_product text_of_other data w =
    ((Message "Faltan campos obligatorios (name y price).", 400), w).
Proof.
  intros [->|(kvs & -> & Hmiss)]; [done|].
  unfold add_new_product, fields_missing.
  destruct kvs as [|kv kvs]; [done|].
  cbn [py_bool negb py_in]. cbn [mbind res_bind].
  destruct (dict_lookup "name" (kv :: kvs)) as [n|] eqn:Hn.
  - destruct Hmiss as [?|Hp]; [done|]. rewrite Hp.
    rewrite bool_decide_eq_true_2 by eauto.
    rewrite bool_decide_eq_false_2 by (by intros [? ?]). done.
  - rewrite bool_decide_eq_false_2 by (by intros [? ?]). done.
Qed.

(** A price given as a string that [float] does not read is answered 400
    with the message about the number, which is not the message about the
    missing fields. *)
Lemma create_unreadable_price kvs (n : json) (s : string) w :
  dict_lookup "name" kvs = Some n →
  dict_lookup "price" kvs = Some (JStr s) →
  float_of_str s = None →
  add_new_product text_of_other (JObj kvs) w =
    ((Message "El precio debe ser un número válido.", 400), w).
Proof.
  intros Hn Hp Hf. unfold add_new_product.
  rewrite (fields_present _ _ _ Hn Hp).
  unfold add_new_product_try. simpl. rewrite Hn, Hp. simpl. by rewrite Hf.
Qed.

(** C4, at a body with both fields whose price is null: [float(None)]
    raises [TypeError], which the [ValueError] clause does not catch, and
    the answer is the handler's 500. *)
Theorem create_null_price_is_500 (name : string) w :
  add_new_product text_of_other
    (JObj [("name", JStr name); ("price", JNull)]) w =
    ((Message "Error interno del servidor al crear producto.", 500), w).
Proof. reflexivity. Qed.

(** A body that is a number other than zero is not a container: the test
    for the fields raises [TypeError] outside the [try]. *)
Lemma create_number_body (n : Z) w :
  n ≠ 0 →
  add_new_product text_of_other (JInt n) w = ((ErrorPage TypeError, 500), w).
Proof.
  intros Hn. unfold add_new_product, fields_missing. simpl.
  by destruct (Z.eqb_spec n 0).
Qed.

(** A creation with a string name, an optional string description and a
    price that [float] reads to a value the store keeps succeeds. *)
Lemma create_succeeds kvs (name : string) (descr : option string)
    (raw_price : json) (x : float) w :
  dict_lookup "name" kvs = Some (JStr name) →
  dict_lookup "description" kvs = JStr <$> descr →
  dict_lookup "price" kvs = Some raw_price →
  py_float raw_price = Ret x →
  add_new_product text_of_other (JObj kvs) w =
    if float_isnan x
    then ((Message "Error interno del servidor al crear producto.", 500),
          called (AddProduct (JStr name) (JStr (default "" descr)) x) w)
    else
      let new_id := next_id (products (w_db w)) in
      ((Created "Producto creado exitosamente." new_id (JStr name), 201),
       set_db {| users := users (w_db w);
                 products := products (w_db w) ++
                   [ {| prod_id := new_id; prod_name := name;
                        prod_description := Some (default "" descr);
                        prod_price := x |} ] |}
              (called (AddProduct (JStr name) (JStr (default "" descr)) x) w)).
Proof.
  intros Hn Hd Hp Hx. unfold add_new_product.
  rewrite (fields_present _ _ _ Hn Hp).
  unfold add_new_product_try. simpl. rewrite Hn, Hd, Hp. simpl. rewrite Hx. simpl.
  assert (default (JStr "") (JStr <$> descr) = JStr (default "" descr)) as ->
    by (by destruct descr).
  unfold add_product. simpl. by destruct (float_isnan x).
Qed.

End Properties.

(** * The model on concrete requests

    The statements below run the handlers on the seed database with the
    decimal instance of the runtime. *)

Import Decimal.

Lemma seed_has_no_9 : ∀ p, p ∈ products seed → prod_id p ≠ 9.
Proof.
  intros p Hp. apply (proj1 (find_has_id_None (products seed) 9)); [|exact Hp].
  reflexivity.
Defined.

Lemma api_without_session_is_401_witness :
  w_session anonymous !! "user_id" = None
  ∧ product_api driver_text (ApiDelete 3) anonymous =
      ((Message "Acceso no autorizado. Por favor, inicie sesión.", 401), anonymous).
Proof.
  split; [reflexivity|].
  apply (api_without_session_is_401 driver_text (ApiDelete 3) anonymous).
  reflexivity.
Defined.

Lemma logout_ends_session_witness :
  w_session anonymous !! "user_id" = None
  ∧ logout anonymous = ((Redirect "index", 302), anonymous)
  ∧ product_api driver_text (ApiList None None) (logout logged_in).2
      = (unauthorized, (logout logged_in).2).
Proof.
  split; [reflexivity|]. split.
  - pose proof (logout_ends_session driver_text anonymous)
      as (_ & _ & _ & _ & Hidem & _).
    apply Hidem. reflexivity.
  - pose proof (logout_ends_session driver_text logged_in)
      as (_ & _ & _ & Hapi & _).
    apply Hapi.
Defined.

Lemma delete_product_frame_witness :
  (∀ p, p ∈ products seed → prod_id p ≠ 9)
  ∧ (delete_product seed 9).2 = seed
  ∧ users (delete_product seed 3).2 = users seed.
Proof.
  split; [exact seed_has_no_9|]. split.
  - pose proof (delete_product_frame seed 9) as (_ & _ & _ & Hsame).
    apply Hsame. exact seed_has_no_9.
  - pose proof (delete_product_frame seed 3) as (Husers & _).
    exact Husers.
Defined.

Lemma list_per_page_zero_witness :
  w_session logged_in !! "user_id" = Some 1
  ∧ args_get None 1 = 1
  ∧ (list_products_try None (Some 0) logged_in).1 = Raise ZeroDivisionError
  ∧ (product_api driver_text (ApiList None (Some 0)) logged_in).1
      = (Message "Error interno del servidor al listar productos.", 500).
Proof.
  split; [reflexivity|]. split; [reflexivity|].
  pose proof (list_per_page_zero driver_text logged_in 1 None eq_refl eq_refl)
    as (Hz & _ & Hr & _).
  split; [exact Hz | exact Hr].
Defined.

Lemma login_by_credentials_witness :
  admin ∈ users (w_db anonymous)
  ∧ NoDup (user_username <$> users (w_db anonymous))
  ∧ w_session (login_post "admin" "password123" anonymous).2 !! "user_id"
      = Some 1
  ∧ (∀ u, u ∈ users (w_db anonymous) →
          ¬ (user_username u = "admin" ∧ user_password u = "password"))
  ∧ w_session (login_post "admin" "password" anonymous).2 = w_session anonymous.
Proof.
  assert (Hin : admin ∈ users (w_db anonymous)) by (apply list_elem_of_here).
  assert (Hnd : NoDup (user_username <$> users (w_db anonymous)))
    by (apply NoDup_singleton).
  assert (Hno : ∀ u, u ∈ users (w_db anonymous) →
                 ¬ (user_username u = "admin" ∧ user_password u = "password")).
  { intros u Hu [_ Hp]. apply list_elem_of_singleton in Hu. subst u.
    discriminate Hp. }
  split; [exact Hin|]. split; [exact Hnd|]. split.
  - apply (proj1 (login_by_credentials driver_text anonymous "admin" "password123")
             admin Hin Hnd eq_refl eq_refl).
  - split; [exact Hno|].
    apply (proj2 (login_by_credentials driver_text anonymous "admin" "password") Hno).
Defined.

(** The scenarios of the specification. *)

Example list_seed_page_1 :
  (product_api driver_text (ApiList (Some 1) (Some 5)) logged_in).1
    = (Listing (take 5 (products seed)) 7 2 1 5, 200).
Proof. reflexivity. Qed.

Example list_seed_page_2 :
  (product_api driver_text (ApiList (Some 2) (Some 5)) logged_in).1
    = (Listing (drop 5 (products seed)) 7 2 2 5, 200).
Proof. reflexivity. Qed.

Example list_seed_defaults :
  product_api driver_text (ApiList None None) logged_in
    = product_api driver_text (ApiList (Some 1) (Some 5)) logged_in.
Proof. reflexivity. Qed.

Example create_pen :
  (add_new_product driver_text pen logged_in).1
    = (Created "Producto creado exitosamente." 8 (JStr "Pen"), 201)
  ∧ get_product_by_id (w_db (add_new_product driver_text pen logged_in).2) 8
    = Some {| prod_id := 8; prod_name := "Pen"; prod_description := Some "";
              prod_price := {| dec_num := 15; dec_scale := 1 |} |}.
Proof. split; reflexivity. Qed.

Example create_description_only :
  (product_api driver_text (ApiCreate (JObj [("description", JStr "x")]))
     logged_in).1
    = (Message "Faltan campos obligatorios (name y price).", 400).
Proof. reflexivity. Qed.

Example create_price_abc :
  (product_api driver_text
     (ApiCreate (JObj [("name", JStr "Pen"); ("price", JStr "abc")]))
     logged_in).1
    = (Message "El precio debe ser un número válido.", 400).
Proof. reflexivity. Qed.

Example create_price_null :
  (product_api driver_text
     (ApiCreate (JObj [("name", JStr "Pen"); ("price", JNull)])) logged_in).1
    = (Message "Error interno del servidor al crear producto.", 500).
Proof. reflexivity. Qed.

Example list_anonymous :
  (product_api driver_text (ApiList None None) anonymous).1
    = (Message "Acceso no autorizado. Por favor, inicie sesión.", 401).
Proof. reflexivity. Qed.

Example delete_twice :
  (delete_single_product 3 logged_in).1
    = (Message "Producto con ID 3 eliminado exitosamente.", 200)
  ∧ (delete_single_product 3 (delete_single_product 3 logged_in).2).1
    = (Message "Producto con ID 3 no encontrado para eliminar.", 404).
Proof. split; reflexivity. Qed.

(** * Further properties of the handlers *)

Section Frames.

Context {float : Type} `{PyFloat float}.
Variable text_of_other : @json float → option string.

Implicit Types (w : @World float) (d : @DB float) (p : @Product float).
Implicit Types (rows : list (@Product float)).

Lemma users_delete_product d i : users (delete_product d i).2 = users d.
Proof. unfold delete_product. by destruct (find _ _). Qed.

(** What [add_product] does when it returns. *)
Lemma add_product_Ret d (name description : json) (price : float) i d' :
  add_product text_of_other d name description price = Ret (i, d') →
  i = next_id (products d) ∧ users d' = users d
  ∧ ∃ p, products d' = products d ++ [p] ∧ prod_id p = i ∧ prod_price p = price.
Proof.
  unfold add_product.
  destruct (bind_text _ name) as [[n|]|]; simpl; try done;
    destruct (bind_text _ description) as [dsc|]; simpl; try done.
  destruct (float_isnan price); [done|]. intros [= <- <-]. simpl.
  split; [done|]. split; [done|]. eexists. split; [done|]. done.
Qed.

Lemma add_new_product_effect (data : json) w :
  let r := add_new_product text_of_other data w in
  w_session r.2 = w_session w
  ∧ users (w_db r.2) = users (w_db w)
  ∧ (r.1.2 ≠ 201 → w_db r.2 = w_db w)
  ∧ (r.1.2 = 201 →
       ∃ p, products (w_db r.2) = products (w_db w) ++ [p]
            ∧ prod_id p = next_id (products (w_db w))).
Proof.
  cbv zeta. unfold add_new_product.
  destruct (fields_missing data) as [[|]|e]; simpl; try done.
  unfold add_new_product_try.
  destruct (mbind _ _) as [[[n dsc] x]|e].
  - destruct (add_product _ _ _ _ _) as [[i d']|e] eqn:Ha.
    + apply add_product_Ret in Ha as (-> & Hu & p & Hp & Hi & _). simpl.
      split; [done|]. split; [done|]. split; [done|]. intros _. by exists p.
    + by destruct e.
  - by destruct e.
Qed.

(** The creation handler changes the database only with a 201, and then by
    one row appended under the next key; it leaves the session and the
    [users] table alone whatever the body. *)
Theorem create_changes_only_on_201 (data : json) w :
  let r := add_new_product text_of_other data w in
  w_session r.2 = w_session w
  ∧ users (w_db r.2) = users (w_db w)
  ∧ (r.1.2 ≠ 201 → w_db r.2 = w_db w)
  ∧ (r.1.2 = 201 →
       ∃ p, products (w_db r.2) = products (w_db w) ++ [p]
            ∧ prod_id p = next_id (products (w_db w))).
Proof. exact (add_new_product_effect data w). Qed.

Local Ltac answer_400 := split; [by left | done].
Local Ltac answer_500 := split; [by right | done].

(** A body that is not a JSON object never creates a product: the answer is
    400 or 500 and nothing changes, not even the record of calls. *)
Theorem create_needs_an_object (data : json) w :
  (∀ kvs, data ≠ JObj kvs) →
  let r := add_new_product text_of_other data w in
  (r.1.2 = 400 ∨ r.1.2 = 500) ∧ r.2 = w.
Proof.
  intros Hobj. cbv zeta. unfold add_new_product, fields_missing.
  destruct data as [|b|n|x|s|l|kvs]; cbn -[existsb].
  - answer_400.
  - destruct b; simpl; [answer_500 | answer_400].
  - destruct (n =? 0); simpl; [answer_400 | answer_500].
  - destruct (float_bool x); simpl; [answer_500 | answer_400].
  - destruct (String.eqb s ""); simpl; [answer_400|].
    destruct (str_contains "name" s); simpl; [|answer_400].
    destruct (str_contains "price" s); simpl; [answer_500 | answer_400].
  - destruct l as [|v l]; [answer_400|]. cbn [negb].
    destruct (existsb (is_str "name") (v :: l)); cbn -[existsb]; [|answer_400].
    destruct (existsb (is_str "price") (v :: l)); cbn; [answer_500 | answer_400].
  - by destruct (Hobj kvs).
Qed.

(** After a creation answered 201, removing the new key answers 200 and
    puts the database back as it was before the creation. *)
Theorem create_then_delete_restores (data : json) w :
  let r := add_new_product text_of_other data w in
  r.1.2 = 201 →
  let r' := delete_single_product (next_id (products (w_db w))) r.2 in
  r'.1.2 = 200 ∧ w_db r'.2 = w_db w.
Proof.
  cbv zeta. intros H201.
  destruct (add_new_product_effect data w) as (_ & Hu & _ & Hadd).
  destruct (Hadd H201) as (p & Hp & Hi).
  set (w1 := (add_new_product text_of_other data w).2) in *.
  assert (Hnone : find (has_id (prod_id p)) (products (w_db w)) = None).
  { apply find_has_id_None. intros q Hq.
    pose proof (next_id_above _ _ Hq). lia. }
  assert (Hf : find (has_id (prod_id p)) (products (w_db w1)) = Some p).
  { rewrite Hp. by apply find_app_new. }
  unfold delete_single_product, delete_product. rewrite <- Hi, Hf. simpl.
  split; [done|]. rewrite Hu. destruct (w_db w) as [us ps] eqn:Hd. simpl in *.
  f_equal. rewrite Hp, filter_app, filter_cons_False, filter_nil, app_nil_r
    by (intros Hne; by apply Hne).
  apply filter_other_ids_absent. by apply find_has_id_None.
Qed.

Lemma find_append {A} (f : A → bool) (l k : list A) :
  find f (l ++ k) = match find f l with Some x => Some x | None => find f k end.
Proof. induction l as [|a l IH]; simpl; [done|]. by destruct (f a). Qed.

(** A creation answered 201 leaves every lookup by another key as it was
    and adds one to the count of the catalog. *)
Theorem create_keeps_other_rows (data : json) w i :
  let r := add_new_product text_of_other data w in
  r.1.2 = 201 → i ≠ next_id (products (w_db w)) →
  get_product_by_id (w_db r.2) i = get_product_by_id (w_db w) i
  ∧ length (products (w_db r.2)) = S (length (products (w_db w))).
Proof.
  cbv zeta. intros H201 Hi.
  destruct (add_new_product_effect data w) as (_ & _ & _ & Hadd).
  destruct (Hadd H201) as (p & Hp & Hpi).
  unfold get_product_by_id. rewrite Hp. split.
  - rewrite find_append. destruct (find _ (products (w_db w))); [done|].
    simpl. unfold has_id. destruct (Z.eqb_spec (prod_id p) i); [lia | done].
  - rewrite length_app. simpl. lia.
Qed.

(** ** What a request can change *)

Lemma list_products_state page_arg per_page_arg w :
  (list_products page_arg per_page_arg w).2 =
    called (GetProducts (args_get page_arg 1) (args_get per_page_arg 5)) w.
Proof.
  unfold list_products, list_products_try.
  destruct (get_products _ _ _) as [l t]. destruct (_ && _); [done|].
  by destruct (py_floordiv _ _).
Qed.

Lemma api_logic_effect (r : api_request) w :
  let w' := (api_logic text_of_other r w).2 in
  w_session w' = w_session w
  ∧ users (w_db w') = users (w_db w)
  ∧ (ids_ascending (products (w_db w)) → ids_ascending (products (w_db w'))).
Proof.
  destruct r as [pa ppa|i|data|i]; cbv zeta; cbn [api_logic].
  - by rewrite list_products_state.
  - unfold get_single_product. by destruct (get_product_by_id _ _).
  - destruct (add_new_product_effect data w) as (Hs & Hu & Hsame & Hadd).
    split; [done|]. split; [done|]. intros Hasc.
    destruct (decide ((add_new_product text_of_other data w).1.2 = 201)) as [H201|Hn].
    + destruct (Hadd H201) as (p & -> & Hp). unfold ids_ascending.
      rewrite fmap_app. apply StronglySorted_app_2; [| done | repeat constructor].
      intros a b Ha Hb. apply list_elem_of_fmap in Ha as (q & -> & Hq).
      apply list_elem_of_singleton in Hb as ->. rewrite Hp. by apply next_id_above.
    + by rewrite (Hsame Hn).
  - unfold delete_single_product.
    pose proof (users_delete_product (w_db w) i) as Hu.
    pose proof (delete_product_ascending (w_db w) i) as Ha.
    destruct (delete_product (w_db w) i) as [c d']. simpl in *.
    by destruct (c >? 0).
Qed.

Lemma app_effect (r : request) w :
  let w' := (app text_of_other r w).2 in
  users (w_db w') = users (w_db w)
  ∧ (ids_ascending (products (w_db w)) → ids_ascending (products (w_db w'))).
Proof.
  destruct r as [| |u pw| | |r]; cbv zeta; cbn [app].
  - unfold index. by destruct (_ !! _).
  - done.
  - unfold login_post. by destruct (check_user _ _ _).
  - done.
  - unfold dashboard. by destruct (_ !! _).
  - unfold product_api, require_auth. destruct (_ !! _); [|done].
    destruct (api_logic_effect r w) as (_ & Hu & Ha). done.
Qed.

(** The products stay in ascending order of their keys, hence with
    distinct keys, through any sequence of requests. *)
Theorem keys_stay_ascending (rs : list request) w :
  ids_ascending (products (w_db w)) →
  ids_ascending (products (w_db (run_requests text_of_other rs w))).
Proof.
  revert w. induction rs as [|r rs IH]; intros w Ha; [done|].
  unfold run_requests in *. simpl. apply IH.
  by apply (app_effect r w).
Qed.

End Frames.

(** * Further properties of listing, lookup and deletion *)

Section Pages.

Context {float : Type} `{PyFloat float}.
Variable text_of_other : @json float → option string.

Implicit Types (w : @World float) (d : @DB float) (p : @Product float).
Implicit Types (rows : list (@Product float)).

Lemma first_pages_concat d per_page n :
  1 ≤ per_page →
  concat (first_pages d per_page n) = take (n * Z.to_nat per_page) (products d).
Proof.
  intros Hpp. unfold first_pages. induction n as [|n IH].
  - by rewrite take_0.
  - rewrite seq_S, fmap_app, concat_app, IH.
    cbn [Nat.add fmap list_fmap concat]. rewrite app_nil_r.
    rewrite get_products_window by lia. unfold window. cbn [fst].
    replace (Z.to_nat ((Z.of_nat n + 1 - 1) * per_page))
      with (n * Z.to_nat per_page)%nat by lia.
    rewrite take_take_drop. f_equal. lia.
Qed.

Lemma ceil_div_bounds (total per_page : Z) :
  0 ≤ total → 1 ≤ per_page →
  total ≤ ceil_div total per_page * per_page
  ∧ (total = 0 → ceil_div total per_page = 0)
  ∧ (0 < total → (ceil_div total per_page - 1) * per_page < total)
  ∧ 0 ≤ ceil_div total per_page.
Proof.
  intros Ht Hpp. unfold ceil_div.
  pose proof (Z.div_mod total per_page ltac:(lia)) as Hdm.
  pose proof (Z.mod_pos_bound total per_page ltac:(lia)) as Hb.
  pose proof (Z.div_pos total per_page ltac:(lia) ltac:(lia)) as Hq.
  destruct (Z.eqb_spec total 0) as [->|Hne].
  - rewrite Zdiv_0_l, Zmod_0_l. simpl. lia.
  - destruct (Z.eqb_spec (total mod per_page) 0); nia.
Qed.

Lemma window_nil_iff {A} (l : list A) page per_page :
  1 ≤ page → 1 ≤ per_page →
  window page per_page l = [] ↔
  ceil_div (Z.of_nat (length l)) per_page < page.
Proof.
  intros Hp Hpp. unfold window.
  pose proof (ceil_div_bounds (Z.of_nat (length l)) per_page ltac:(lia) Hpp)
    as (Hup & Hzero & Hlow & Hnn).
  set (c := ceil_div (Z.of_nat (length l)) per_page) in *.
  rewrite <- length_zero_iff_nil, length_take, length_drop.
  assert (Hoff : Z.of_nat (Z.to_nat ((page - 1) * per_page)) = (page - 1) * per_page)
    by (apply Z2Nat.id; nia).
  set (off := Z.to_nat ((page - 1) * per_page)) in *.
  assert (Hmin : (Z.to_nat per_page `min` (length l - off) = 0)%nat
                 ↔ Z.of_nat (length l) ≤ (page - 1) * per_page) by lia.
  rewrite Hmin. clear Hmin.
  destruct (Z.eqb_spec (Z.of_nat (length l)) 0) as [Hz|Hnz]; split; intros Hc.
  - rewrite (Hzero Hz). lia.
  - nia.
  - assert (c - 1 < page - 1); [nia | lia].
  - assert (c ≤ page - 1) by lia. nia.
Qed.

Lemma sql_window_sublist {A} (n m : Z) (l : list A) :
  sublist (sql_limit n (sql_offset m l)) l.
Proof.
  unfold sql_limit, sql_offset. destruct (n <? 0).
  - apply sublist_drop.
  - etrans; [apply sublist_take | apply sublist_drop].
Qed.

Lemma find_in_ascending rows p :
  ids_ascending rows → p ∈ rows → find (has_id (prod_id p)) rows = Some p.
Proof.
  unfold ids_ascending, has_id. induction rows as [|q rows IH]; intros Ha Hp.
  - inversion Hp.
  - rewrite fmap_cons in Ha. apply StronglySorted_inv in Ha as [Ha Hq].
    simpl. apply elem_of_cons in Hp as [->|Hp].
    + by rewrite Z.eqb_refl.
    + destruct (Z.eqb_spec (prod_id q) (prod_id p)) as [Heq|Hne]; [|by apply IH].
      rewrite Forall_forall in Hq.
      assert (prod_id q < prod_id p); [|lia].
      apply Hq. apply list_elem_of_fmap. eauto.
Qed.

(** With keys in ascending order, every product of a listing, whatever the
    page parameters, is the product that the lookup by its key returns. *)
Theorem listed_product_is_found d page per_page p :
  ids_ascending (products d) →
  p ∈ (get_products d page per_page).1 →
  get_product_by_id d (prod_id p) = Some p.
Proof.
  intros Ha Hp. unfold get_product_by_id. apply find_in_ascending; [done|].
  eapply elem_of_sublist; [exact Hp|]. apply sql_window_sublist.
Qed.

Lemma find_filter_other rows i j :
  i ≠ j →
  find (has_id j) (filter (λ p, prod_id p ≠ i) rows) = find (has_id j) rows.
Proof.
  intros Hij. induction rows as [|q rows IH]; [done|].
  destruct (decide (prod_id q = i)) as [Heq|Hne].
  - rewrite filter_cons_False by (intros Hc; by apply Hc). simpl.
    unfold has_id at 2. destruct (Z.eqb_spec (prod_id q) j); [lia | done].
  - rewrite filter_cons_True by done. simpl. by rewrite IH.
Qed.

Lemma filter_removes_one rows p :
  ids_ascending rows → p ∈ rows →
  S (length (filter (λ q, prod_id q ≠ prod_id p) rows)) = length rows.
Proof.
  unfold ids_ascending. induction rows as [|q rows IH]; intros Ha Hp.
  - inversion Hp.
  - rewrite fmap_cons in Ha. apply StronglySorted_inv in Ha as [Ha Hq].
    rewrite Forall_forall in Hq.
    assert (Hlt : ∀ x, x ∈ rows → prod_id q < prod_id x).
    { intros x Hx. apply Hq, list_elem_of_fmap. eauto. }
    apply elem_of_cons in Hp as [->|Hp].
    + rewrite filter_cons_False by (intros Hc; by apply Hc). simpl. f_equal.
      f_equal. apply filter_other_ids_absent.
      intros x Hx. pose proof (Hlt x Hx). lia.
    + rewrite filter_cons_True by (pose proof (Hlt p Hp); lia).
      simpl. f_equal. by apply IH.
Qed.

(** A deletion leaves the lookup by every other key as it was; with keys in
    ascending order, a deletion that finds its row takes exactly one row
    out of the table. *)
Theorem delete_keeps_other_rows d i :
  let d' := (delete_product d i).2 in
  (∀ j, j ≠ i → get_product_by_id d' j = get_product_by_id d j)
  ∧ (ids_ascending (products d) → (delete_product d i).1 = 1 →
       S (length (products d')) = length (products d)).
Proof.
  cbv zeta. split.
  - intros j Hj. unfold get_product_by_id.
    rewrite delete_product_products. by apply find_filter_other.
  - intros Ha. rewrite delete_product_count, delete_product_products.
    destruct (find (has_id i) (products d)) as [q|] eqn:Hf; [|done].
    intros _. apply find_has_id_Some in Hf as [Hq <-].
    by apply filter_removes_one.
Qed.

End Pages.

(** * Properties of the schema bootstrap *)

Section BootstrapProperties.

Context {float : Type}.
Variable float_literal : string → float.

Implicit Types (s : @Store float).

Lemma foldl_and {A} (f : A → bool) (b : bool) (l : list A) :
  foldl (λ acc x, acc && f x) b l = b && forallb f l.
Proof.
  revert b. induction l as [|a l IH]; intros b; simpl.
  - by rewrite andb_true_r.
  - by rewrite IH, andb_assoc.
Qed.

(** [is_db_model_created] answers true exactly when every table of the
    list is there; on the empty list it answers true. *)
Theorem is_db_model_created_iff s (tables : list string) :
  is_db_model_created s tables = true ↔
  ∀ tbl, tbl ∈ tables → has_table s tbl = true.
Proof.
  unfold is_db_model_created. rewrite foldl_and. simpl.
  rewrite forallb_forall. split; intros Hall tbl Ht; apply Hall;
    by apply list_elem_of_In.
Qed.

Lemma both_tables_iff s :
  is_db_model_created s ["users"; "products"] = true ↔
  is_Some (users_table s) ∧ is_Some (products_table s).
Proof.
  unfold is_db_model_created, has_table. simpl.
  destruct (users_table s), (products_table s); simpl; split;
    try done; intros [[? ?] [? ?]]; done.
Qed.

Lemma create_db_and_tables_tables s :
  is_db_model_created (create_db_and_tables float_literal s)
    ["users"; "products"] = true.
Proof. apply both_tables_iff. unfold create_db_and_tables. simpl. eauto. Qed.

Lemma find_is_admin_snoc (us : list User) (i : Z) (pw : string) :
  is_Some (find is_admin
             (us ++ [ {| user_id := i; user_username := "admin";
                         user_password := pw |} ])).
Proof.
  induction us as [|u us IH]; simpl; [eauto|]. destruct (is_admin u); eauto.
Qed.

Lemma seeded_products_length :
  length (add_all (@nil (@Product float)) (products_data float_literal)) = 7%nat.
Proof. reflexivity. Qed.

Lemma create_db_and_tables_products s :
  ∃ ps, products_table (create_db_and_tables float_literal s) = Some ps
        ∧ ps ≠ [].
Proof.
  unfold create_db_and_tables. cbn [products_table]. eexists. split; [done|].
  destruct (Z.eqb_spec (Z.of_nat (length (products (create_all s)))) 0)
    as [Hz|Hnz].
  - replace (products (create_all s)) with (@nil (@Product float))
      by (symmetry; apply length_zero_iff_nil; lia).
    intros Hc. apply (f_equal length) in Hc.
    by rewrite seeded_products_length in Hc.
  - intros Hc. rewrite Hc in Hnz. done.
Qed.

Lemma create_db_and_tables_admin s :
  ∃ us, users_table (create_db_and_tables float_literal s) = Some us
        ∧ is_Some (find is_admin us).
Proof.
  unfold create_db_and_tables. cbn [users_table]. eexists. split; [done|].
  destruct (find is_admin (users (create_all s))) as [u|] eqn:Hf.
  - rewrite Hf. eauto.
  - apply find_is_admin_snoc.
Qed.

(** [create_db_and_tables] run twice gives what one run gives: the admin
    and the example products are not inserted again. *)
Theorem create_db_and_tables_idempotent s :
  create_db_and_tables float_literal (create_db_and_tables float_literal s)
    = create_db_and_tables float_literal s.
Proof.
  destruct (create_db_and_tables_products s) as (ps & Hps & Hne).
  destruct (create_db_and_tables_admin s) as (us & Hus & [u Hu]).
  destruct (create_db_and_tables float_literal s) as [ust pst]. simpl in *.
  subst ust pst. unfold create_db_and_tables, create_all. simpl.
  rewrite Hu. destruct ps as [|q ps]; done.
Qed.

(** After [initialize_database] both tables are there, whatever the file
    held; a second run changes nothing; and when both tables were there
    already, nothing is changed at all (a catalog emptied by deletions is
    not filled again). *)
Theorem initialize_database_tables s :
  let s' := initialize_database float_literal s in
  is_Some (store_db s')
  ∧ initialize_database float_literal s' = s'
  ∧ (is_Some (users_table s) → is_Some (products_table s) → s' = s).
Proof.
  cbv zeta.
  assert (Hcreated : is_db_model_created (initialize_database float_literal s)
                       ["users"; "products"] = true).
  { unfold initialize_database.
    destruct (is_db_model_created s _) eqn:Hc; simpl;
      [done | apply create_db_and_tables_tables]. }
  split; [|split].
  - apply both_tables_iff in Hcreated as [[us Hu] [ps Hp]].
    unfold store_db. rewrite Hu, Hp. eauto.
  - unfold initialize_database at 1. by rewrite Hcreated.
  - intros Hu Hp. unfold initialize_database.
    by rewrite (proj2 (both_tables_iff s) (conj Hu Hp)).
Qed.

(** [create_db_and_tables] never drops or changes a row: the users that
    were there stay, in order, before anything added; products that were
    there stay exactly as they were; only an empty or missing catalog gets
    the seven example rows, under the keys 1 to 7. *)
Theorem create_db_and_tables_keeps_rows s :
  let s' := create_db_and_tables float_literal s in
  (∃ extra, users_table s' = Some (default [] (users_table s) ++ extra)
            ∧ Forall (λ u, user_username u = "admin") extra)
  ∧ (default [] (products_table s) ≠ [] →
       products_table s' = Some (default [] (products_table s)))
  ∧ (default [] (products_table s) = [] →
       ∃ ps, products_table s' = Some ps
             ∧ prod_id <$> ps = [1; 2; 3; 4; 5; 6; 7]).
Proof.
  cbv zeta. unfold create_db_and_tables, create_all. simpl. split; [|split].
  - destruct (find is_admin _).
    + exists []. by rewrite app_nil_r.
    + eexists. split; [done|]. by repeat constructor.
  - intros Hne. destruct (Z.eqb_spec (Z.of_nat (length (default [] (products_table s)))) 0)
      as [Hz|Hnz]; [|done].
    destruct Hne. apply length_zero_iff_nil. lia.
  - intros ->. simpl. eexists. split; [done|]. reflexivity.
Qed.

Lemma find_is_admin_None (us : list User) :
  find is_admin us = None ↔ ∀ u, u ∈ us → user_username u ≠ "admin".
Proof.
  unfold is_admin. induction us as [|a us IH]; simpl.
  - split; [intros _ u Hu; inversion Hu | done].
  - destruct (String.eqb_spec (user_username a) "admin") as [Heq|Hne].
    + split; [done|]. intros Hall. destruct (Hall a); [left | done].
    + rewrite IH. split.
      * intros Hall u Hu. apply elem_of_cons in Hu as [->|Hu]; auto.
      * intros Hall u Hu. apply Hall. by right.
Qed.

(** [create_db_and_tables] keeps the usernames distinct and the product
    keys in ascending order, and afterwards some user is named admin. *)
Theorem create_db_and_tables_keeps_invariants s :
  let d := create_all s in
  let s' := create_db_and_tables float_literal s in
  ∃ d', store_db s' = Some d'
    ∧ (NoDup (user_username <$> users d) → NoDup (user_username <$> users d'))
    ∧ (ids_ascending (products d) → ids_ascending (products d'))
    ∧ "admin" ∈ user_username <$> users d'.
Proof.
  cbv zeta. unfold create_db_and_tables, store_db.
  cbn [users_table products_table]. eexists. split; [reflexivity|].
  cbn [users products]. split; [|split].
  - intros Hnd. destruct (find is_admin (users (create_all s))) eqn:Hf; [done|].
    rewrite fmap_app. apply NoDup_app. split; [done|]. split.
    + intros x Hx Hadm. simpl in Hadm. apply list_elem_of_singleton in Hadm as ->.
      apply list_elem_of_fmap in Hx as (u & Hu & Hin).
      by destruct (proj1 (find_is_admin_None _) Hf u Hin).
    + simpl. apply NoDup_singleton.
  - intros Ha.
    destruct (Z.eqb_spec (Z.of_nat (length (products (create_all s)))) 0) as [Hz|Hnz];
      [|done].
    replace (products (create_all s)) with (@nil (@Product float))
      by (symmetry; apply length_zero_iff_nil; lia).
    unfold ids_ascending. simpl.
    repeat (constructor; [|repeat constructor; lia]). constructor.
  - destruct (find is_admin (users (create_all s))) as [u|] eqn:Hf.
    + apply find_some in Hf as [Hin Hadm]. apply list_elem_of_fmap.
      exists u. split; [|by apply list_elem_of_In].
      unfold is_admin in Hadm. symmetry. by apply String.eqb_eq.
    + rewrite fmap_app. apply elem_of_app. right. simpl. by left.
Qed.

Lemma find_all_false {A} (f : A → bool) (l : list A) :
  (∀ x, x ∈ l → f x = false) → find f l = None.
Proof.
  induction l as [|a l IH]; intros Hall; simpl; [done|].
  rewrite (Hall a) by left. apply IH. intros x Hx. apply Hall. by right.
Qed.

Lemma find_user_snoc (us : list User) (a : User) username password :
  find (user_matches username password) us = None →
  user_matches username password a = true →
  find (user_matches username password) (us ++ [a]) = Some a.
Proof.
  intros Hn Ha. induction us as [|u us IH]; simpl in *.
  - by rewrite Ha.
  - destruct (user_matches username password u); [done | by apply IH].
Qed.

(** When no user was named admin, after [create_db_and_tables] the pair
    admin / password123 is the credentials of the user just added. *)
Theorem seeded_admin_logs_in s d' :
  (∀ u, u ∈ users (create_all s) → user_username u ≠ "admin") →
  store_db (create_db_and_tables float_literal s) = Some d' →
  check_user d' "admin" "password123"
    = Some (next_user_id (users (create_all s))).
Proof.
  intros Hno. unfold create_db_and_tables, store_db.
  cbn [users_table products_table].
  rewrite (proj2 (find_is_admin_None _) Hno). intros [= <-].
  unfold check_user. cbn [users]. rewrite find_user_snoc with
    (a := {| user_id := next_user_id (users (create_all s));
             user_username := "admin"; user_password := "password123" |}); try done.
  apply find_all_false. intros u Hu. unfold user_matches.
  apply Hno in Hu.
  destruct (String.eqb_spec (user_username u) "admin"); done.
Qed.

End BootstrapProperties.

(** * Redirects *)

Section Redirects.

Context {float : Type} `{PyFloat float}.
Variable text_of_other : @json float → option string.

Implicit Types (w : @World float).

Lemma api_never_redirects (r : api_request) w :
  is_redirect (product_api text_of_other r w).1.1 = false.
Proof.
  unfold product_api, require_auth. destruct (_ !! _); [|done].
  destruct r as [pa ppa|i|data|i]; cbn [api_logic].
  - unfold list_products, list_products_try.
    destruct (get_products _ _ _) as [l t].
    destruct (_ && _); simpl; [done|]. by destruct (py_floordiv _ _).
  - unfold get_single_product. by destruct (get_product_by_id _ _).
  - unfold add_new_product.
    destruct (fields_missing data) as [[|]|]; simpl; try done.
    unfold add_new_product_try.
    destruct (mbind _ _) as [[[n dsc] x]|[]]; try done;
      destruct (add_product _ _ _ _ _) as [[j d']|[]]; done.
  - unfold delete_single_product.
    destruct (delete_product _ _) as [c d']. by destruct (c >? 0).
Qed.

(** Every redirect the application sends names one of its own endpoints,
    and a client that follows it gets a page, not another redirect: from
    the index to the dashboard, from a login to the dashboard, from a
    logout through the index to the login page, from the dashboard
    without a session to the login page. *)
Theorem redirects_end_after_one_step (r : request) w :
  (∀ e, (app text_of_other r w).1.1 = Redirect e →
        is_Some (endpoint_request (float := float) e))
  ∧ is_redirect (follow_redirect text_of_other r w).1.1 = false.
Proof.
  unfold follow_redirect.
  destruct r as [| |u pw| | |r]; cbn [app].
  - unfold index. destruct (w_session w !! "user_id") as [uid|] eqn:Hs; simpl.
    + split; [intros e [= <-]; eauto|]. unfold dashboard. by rewrite Hs.
    + done.
  - done.
  - unfold login_post. destruct (check_user _ _ _) as [uid|]; simpl.
    + split; [intros e [= <-]; eauto|]. unfold dashboard. simpl.
      by rewrite lookup_insert_eq.
    + done.
  - simpl. split; [intros e [= <-]; eauto|]. unfold index. simpl.
    by rewrite lookup_delete_eq.
  - unfold dashboard. destruct (w_session w !! "user_id") as [uid|] eqn:Hs; simpl.
    + done.
    + split; [intros e [= <-]; eauto | done].
  - pose proof (api_never_redirects r w) as Hr.
    destruct (product_api text_of_other r w) as [[b st] w']. simpl in *.
    destruct b; try done.
Qed.

End Redirects.

(** * The service behind the driver and the hook *)

Section ServerProperties.

Context {float : Type} `{PyFloat float}.
Variable text_of_other : @json float → option string.
Variable float_literal : string → float.

Implicit Types (w : @World float) (d : @DB float) (p : @Product float).
Implicit Types (st : @Server.State float) (s : @Store float).

(** ** In range, the functions are the statements on the tables *)

Lemma bind_int_ok n : int64_ok n = true → bind_int n = Ret n.
Proof. intros Hn. unfold bind_int. by rewrite Hn. Qed.

Lemma bind_int_overflow n : int64_ok n = false → bind_int n = Raise OverflowError.
Proof. intros Hn. unfold bind_int. by rewrite Hn. Qed.

Lemma server_get_products_in_range d page per_page :
  int64_ok per_page = true → int64_ok ((page - 1) * per_page) = true →
  Server.get_products d page per_page = Ret (get_products d page per_page).
Proof.
  intros Hpp Hoff. unfold Server.get_products.
  by rewrite (bind_int_ok _ Hoff), (bind_int_ok _ Hpp).
Qed.

Lemma server_get_products_overflow d page per_page :
  int64_ok per_page = false ∨ int64_ok ((page - 1) * per_page) = false →
  Server.get_products d page per_page = Raise OverflowError.
Proof.
  intros Hout. unfold Server.get_products, bind_int.
  destruct (int64_ok ((page - 1) * per_page)); simpl; [|done].
  destruct (int64_ok per_page); simpl; [|done]. by destruct Hout.
Qed.

Lemma server_get_products_Ret d page per_page l total :
  Server.get_products d page per_page = Ret (l, total) →
  int64_ok per_page = true ∧ int64_ok ((page - 1) * per_page) = true
  ∧ get_products d page per_page = (l, total).
Proof.
  unfold Server.get_products, bind_int.
  destruct (int64_ok ((page - 1) * per_page)); simpl; [|done].
  destruct (int64_ok per_page); simpl; [|done]. by intros [= <- <-].
Qed.

Lemma server_list_products_in_range page per_page w :
  int64_ok per_page = true → int64_ok ((page - 1) * per_page) = true →
  Server.list_products (Some page) (Some per_page) w
    = list_products (Some page) (Some per_page) w.
Proof.
  intros Hpp Hoff.
  unfold Server.list_products, Server.list_products_try,
    list_products, list_products_try, args_get.
  change (default 1 (Some page)) with page.
  change (default 5 (Some per_page)) with per_page.
  rewrite (server_get_products_in_range _ _ _ Hpp Hoff).
  by destruct (get_products (w_db w) page per_page) as [l t].
Qed.

Lemma server_list_products_overflow page per_page w :
  int64_ok per_page = false ∨ int64_ok ((page - 1) * per_page) = false →
  Server.list_products (Some page) (Some per_page) w
    = (jsonify_message "Error interno del servidor al listar productos." 500,
       called (GetProducts page per_page) w).
Proof.
  intros Hout. unfold Server.list_products, Server.list_products_try, args_get.
  change (default 1 (Some page)) with page.
  change (default 5 (Some per_page)) with per_page.
  by rewrite (server_get_products_overflow _ _ _ Hout).
Qed.

Lemma server_list_logged_in w uid page_arg per_page_arg :
  w_session w !! "user_id" = Some uid →
  Server.product_api text_of_other (ApiList page_arg per_page_arg) w
    = Server.list_products page_arg per_page_arg w.
Proof.
  intros Hs. unfold Server.product_api.
  by apply require_auth_logged_in with uid.
Qed.

Lemma server_get_product_by_id_cases d i :
  Server.get_product_by_id d i =
    if int64_ok i then Ret (get_product_by_id d i) else Raise OverflowError.
Proof. unfold Server.get_product_by_id, bind_int. by destruct (int64_ok i). Qed.

Lemma server_delete_product_cases d i :
  Server.delete_product d i =
    if int64_ok i then Ret (delete_product d i) else Raise OverflowError.
Proof.
  unfold Server.delete_product, delete_product, bind_int.
  destruct (int64_ok i); simpl; [|done]. by destruct (find _ _).
Qed.

Lemma server_delete_single_product_in_range i w :
  int64_ok i = true →
  Server.delete_single_product i w = delete_single_product i w.
Proof.
  intros Hi. unfold Server.delete_single_product, delete_single_product.
  rewrite server_delete_product_cases, Hi.
  by destruct (delete_product (w_db w) i) as [c d'].
Qed.

(** On a request whose integers the store accepts, a handler behind the
    driver answers as the handler on the tables does, and leaves the same
    state. *)
Lemma server_api_logic_in_range (r : api_request) w :
  api_in_range r = true →
  Server.api_logic text_of_other r w = api_logic text_of_other r w.
Proof.
  destruct r as [pa ppa|i|data|i]; cbn [api_in_range Server.api_logic api_logic].
  - intros [Hpp Hoff]%andb_true_iff.
    rewrite list_products_defaults. rewrite <- server_list_products_in_range by done.
    by destruct pa, ppa.
  - intros Hi. unfold Server.get_single_product, get_single_product.
    rewrite server_get_product_by_id_cases, Hi.
    by destruct (get_product_by_id (w_db w) i).
  - done.
  - apply server_delete_single_product_in_range.
Qed.

Lemma server_route_in_range (r : request) w :
  match r with ReqApi q => api_in_range q = true | _ => True end →
  Server.route text_of_other r w = app text_of_other r w.
Proof.
  destruct r as [| |u pw| | |q]; try done. intros Hq.
  cbn [Server.route app]. unfold Server.product_api, product_api, require_auth.
  destruct (_ !! _); [|done]. by apply server_api_logic_in_range.
Qed.

(** ** Listing *)

(** C2, amended. For [page ≥ 1] and [per_page ≥ 1] whose limit and offset
    the store accepts, [get_products] returns the window (skip
    [(page - 1) * per_page] rows of the table, take at most [per_page]) and
    the count of the whole table, and the page count the route computes is
    [ceil (total / per_page)].  The route answers 200 with these whenever
    the window is not empty or [page = 1].  The window is in key order when
    the table is. *)
Theorem list_window_and_pages w uid page per_page :
  w_session w !! "user_id" = Some uid →
  1 ≤ page → 1 ≤ per_page →
  int64_ok per_page = true → int64_ok ((page - 1) * per_page) = true →
  let d := w_db w in
  let total := Z.of_nat (length (products d)) in
  Server.get_products d page per_page
    = Ret (window page per_page (products d), total)
  ∧ Z.of_nat (length (window page per_page (products d))) ≤ per_page
  ∧ py_floordiv (total + per_page - 1) per_page = Ret (ceil_div total per_page)
  ∧ (window page per_page (products d) ≠ [] ∨ page = 1 →
       (Server.product_api text_of_other (ApiList (Some page) (Some per_page)) w).1
         = listing_of d page per_page)
  ∧ (ids_ascending (products d) →
       ids_ascending (window page per_page (products d))).
Proof.
  intros Hs Hp Hpp Hlim Hoff. cbv zeta. split; [|split; [|split; [|split]]].
  - rewrite (server_get_products_in_range _ _ _ Hlim Hoff).
    f_equal. apply get_products_window. lia.
  - unfold window. rewrite length_take. lia.
  - by apply page_count_ceil.
  - intros Hok. rewrite (server_list_logged_in _ _ _ _ Hs).
    rewrite (server_list_products_in_range _ _ _ Hlim Hoff).
    rewrite list_products_cases by done.
    destruct Hok as [Hne | ->].
    + by rewrite bool_decide_eq_false_2.
    + by rewrite andb_false_r.
  - apply window_ascending.
Qed.

(** C3, amended. For a logged-in client and [per_page ≥ 1]: a page after
    the first for which [get_products] returns no rows is answered 404;
    the first page of an empty catalog is answered 200 with an empty list
    of products when the store accepts [per_page] as a limit. *)
Theorem list_empty_page w uid page per_page :
  w_session w !! "user_id" = Some uid →
  1 ≤ per_page →
  let r := (Server.product_api text_of_other
              (ApiList (Some page) (Some per_page)) w).1 in
  (∀ total, Server.get_products (w_db w) page per_page = Ret ([], total) →
            1 < page →
            r = (Message "No hay productos en esta página.", 404))
  ∧ (products (w_db w) = [] → page = 1 → int64_ok per_page = true →
     r = (Listing [] 0 0 1 per_page, 200)).
Proof.
  intros Hs Hpp. cbv zeta. rewrite (server_list_logged_in _ _ _ _ Hs). split.
  - intros total Hret Hp.
    apply server_get_products_Ret in Hret as (Hlim & Hoff & Hg).
    rewrite (server_list_products_in_range _ _ _ Hlim Hoff).
    rewrite list_products_cases by done.
    rewrite get_products_window in Hg by lia. injection Hg as -> _.
    rewrite bool_decide_eq_true_2 by done.
    by destruct (Z.gtb_spec page 1); [|lia].
  - intros Hempty -> Hlim.
    rewrite (server_list_products_in_range _ _ _ Hlim) by done.
    rewrite list_products_cases by done.
    rewrite andb_false_r. unfold listing_of, window, ceil_div.
    rewrite Hempty, drop_nil, take_nil. cbn [length Z.of_nat].
    by rewrite Zmod_0_l, Zdiv_0_l.
Qed.

(** For [per_page ≥ 1] that the store accepts as a limit and a table whose
    count it holds, [get_products] returns a list for each of the pages
    1, 2, ... up to the page count, and these lists one after the other
    are the whole catalog: every row once, in the order of the table. *)
Theorem pages_cover_catalog d per_page :
  1 ≤ per_page → int64_ok per_page = true →
  let total := Z.of_nat (length (products d)) in
  int64_ok total = true →
  ∃ pages,
    Forall2 (λ k l, Server.get_products d (Z.of_nat k + 1) per_page
                      = Ret (l, total))
            (seq 0 (Z.to_nat (ceil_div total per_page))) pages
    ∧ concat pages = products d.
Proof.
  intros Hpp Hlim. cbv zeta. intros Htot.
  set (total := Z.of_nat (length (products d))) in *.
  pose proof (ceil_div_bounds total per_page ltac:(lia) Hpp)
    as (Hup & Hzero & Hlow & Hnn).
  exists (first_pages d per_page (Z.to_nat (ceil_div total per_page))). split.
  - unfold first_pages. apply Forall2_fmap_r, Forall_Forall2_diag, Forall_forall.
    intros k Hk. apply elem_of_seq in Hk.
    rewrite server_get_products_in_range; [done | done |].
    unfold int64_ok in *. apply andb_true_iff in Htot as [_ Hmax].
    apply andb_true_iff. split; [apply Z.leb_le; nia|].
    apply Z.leb_le. apply Z.leb_le in Hmax.
    assert (Z.of_nat k ≤ ceil_div total per_page - 1) by lia.
    destruct (decide (total = 0)) as [Hz|Hnz]; [rewrite (Hzero Hz) in *; lia|].
    assert ((Z.of_nat k + 1 - 1) * per_page ≤ (ceil_div total per_page - 1) * per_page)
      by nia.
    lia.
  - rewrite first_pages_concat by done. apply take_ge. subst total. nia.
Qed.

(** For a logged-in client, [page ≥ 1] and [per_page ≥ 1] whose limit and
    offset the store accepts, the listing is answered 404 exactly when the
    page is after the first and after the last page of the count;
    otherwise it is answered 200. *)
Theorem list_404_iff_beyond_pages w uid page per_page :
  w_session w !! "user_id" = Some uid →
  1 ≤ page → 1 ≤ per_page →
  int64_ok per_page = true → int64_ok ((page - 1) * per_page) = true →
  let total := Z.of_nat (length (products (w_db w))) in
  let r := (Server.product_api text_of_other
              (ApiList (Some page) (Some per_page)) w).1 in
  (r.2 = 404 ↔ 1 < page ∧ ceil_div total per_page < page)
  ∧ (r.2 = 404 ∨ r.2 = 200).
Proof.
  intros Hs Hp Hpp Hlim Hoff. cbv zeta.
  rewrite (server_list_logged_in _ _ _ _ Hs).
  rewrite (server_list_products_in_range _ _ _ Hlim Hoff).
  rewrite list_products_cases by done.
  pose proof (window_nil_iff (products (w_db w)) page per_page Hp Hpp) as Hnil.
  destruct (decide (window page per_page (products (w_db w)) = [])) as [He|Hne].
  - rewrite bool_decide_eq_true_2 by done.
    destruct (Z.gtb_spec page 1); simpl.
    + split; [|by left]. split; [intros _; split; [lia | by apply Hnil] | done].
    + split; [|by right]. split; [done | lia].
  - rewrite bool_decide_eq_false_2 by done. simpl.
    split; [|by right]. split; [done|]. intros [_ Hc]. by apply Hnil in Hc.
Qed.

(** The page parameters are used as they come.  For a logged-in client: a
    limit or an offset the store does not accept is answered 500; with
    [per_page = 0] a page after the first is answered 404 and any other
    page 500; with [per_page ≠ 0], a page that is not after the first and
    a limit and offset the store accepts, the answer is 200, never 404. *)
Theorem list_unchecked_parameters w uid page per_page :
  w_session w !! "user_id" = Some uid →
  let r := (Server.product_api text_of_other
              (ApiList (Some page) (Some per_page)) w).1 in
  (int64_ok per_page = false ∨ int64_ok ((page - 1) * per_page) = false →
     r = (Message "Error interno del servidor al listar productos.", 500))
  ∧ (per_page = 0 → 1 < page → r = (Message "No hay productos en esta página.", 404))
  ∧ (per_page = 0 → page ≤ 1 →
       r = (Message "Error interno del servidor al listar productos.", 500))
  ∧ (per_page ≠ 0 → page ≤ 1 →
       int64_ok per_page = true → int64_ok ((page - 1) * per_page) = true →
       r.2 = 200).
Proof.
  intros Hs. cbv zeta. rewrite (server_list_logged_in _ _ _ _ Hs).
  split; [|split; [|split]].
  - intros Hout. by rewrite (server_list_products_overflow _ _ _ Hout).
  - intros -> Hp. rewrite server_list_products_in_range;
      [|done | by rewrite Z.mul_0_r].
    unfold list_products, list_products_try, args_get, get_products, sql_limit.
    change (default 1 (Some page)) with page. cbv beta iota zeta. simpl.
    by destruct (Z.gtb_spec page 1); [|lia].
  - intros -> Hp. rewrite server_list_products_in_range;
      [|done | by rewrite Z.mul_0_r].
    unfold list_products, list_products_try, args_get, get_products, sql_limit.
    change (default 1 (Some page)) with page. cbv beta iota zeta. simpl.
    by destruct (Z.gtb_spec page 1); [lia|].
  - intros Hpp Hp Hlim Hoff.
    rewrite (server_list_products_in_range _ _ _ Hlim Hoff).
    unfold list_products, list_products_try, args_get, get_products.
    change (default 1 (Some page)) with page.
    change (default 5 (Some per_page)) with per_page.
    cbv beta iota zeta. destruct (Z.gtb_spec page 1); [lia|].
    rewrite andb_false_r. unfold py_floordiv.
    by destruct (Z.eqb_spec per_page 0).
Qed.

(** ** Lookup and deletion *)

(** The lookup handler leaves the database and the session as they were.
    For a key the store accepts it answers 200 with a row of the table
    that has the key when there is one and 404 when there is none; for a
    key the store does not accept, the exception of the driver escapes
    and the answer is 500. *)
Theorem lookup_found_or_404 w i :
  let r := Server.get_single_product i w in
  w_db r.2 = w_db w ∧ w_session r.2 = w_session w
  ∧ (int64_ok i = true →
     (∃ p, p ∈ products (w_db w) ∧ prod_id p = i) →
     ∃ p, r.1 = (ProductJson p, 200) ∧ p ∈ products (w_db w) ∧ prod_id p = i)
  ∧ (int64_ok i = true →
     (∀ p, p ∈ products (w_db w) → prod_id p ≠ i) → r.1.2 = 404)
  ∧ (int64_ok i = false → r.1 = (ErrorPage OverflowError, 500)).
Proof.
  cbv zeta. unfold Server.get_single_product.
  rewrite server_get_product_by_id_cases. unfold get_product_by_id.
  destruct (int64_ok i); simpl.
  - destruct (find (has_id i) (products (w_db w))) as [q|] eqn:Hf; simpl.
    + apply find_has_id_Some in Hf as [Hq Hi].
      split; [done|]. split; [done|]. split; [|split; [|done]].
      * intros _ _. by exists q.
      * intros _ Hall. by destruct (Hall q).
    + split; [done|]. split; [done|]. split; [|split; [done|done]].
      intros _ (p & Hp & Hi). by destruct (proj1 (find_has_id_None _ _) Hf p).
  - repeat split; done.
Qed.

(** C5, amended. For a key the store accepts, [delete_single_product]
    answers 200 exactly when a row with the key exists; afterwards
    [get_product_by_id] finds nothing under that key.  When no row has the
    key, [delete_product] reports 0 rows, the answer is 404 and the
    database is unchanged; so a second removal of the same key answers
    404. *)
Theorem remove_found_or_not w i :
  int64_ok i = true →
  let r := Server.delete_single_product i w in
  (r.1.2 = 200 ↔ ∃ p, p ∈ products (w_db w) ∧ prod_id p = i)
  ∧ Server.get_product_by_id (w_db r.2) i = Ret None
  ∧ ((∀ p, p ∈ products (w_db w) → prod_id p ≠ i) →
       Server.delete_product (w_db w) i = Ret (0, w_db w)
       ∧ r.1.2 = 404 ∧ w_db r.2 = w_db w)
  ∧ (Server.delete_single_product i r.2).1.2 = 404.
Proof.
  intros Hi. cbv zeta.
  rewrite !(server_delete_single_product_in_range _ _ Hi).
  rewrite server_get_product_by_id_cases, server_delete_product_cases, Hi.
  destruct (delete_single_product_cases w i) as (Hiff & Hgone & Habsent & Hagain).
  split; [exact Hiff|]. split; [by rewrite Hgone|]. split; [|exact Hagain].
  intros Hall. destruct (Habsent Hall) as (H0 & H404 & Hsame).
  split; [|by split]. f_equal.
  apply find_has_id_None in Hall. unfold delete_product. by rewrite Hall.
Qed.

(** ** Creation *)

Lemma create_succeeds_sent kvs (name : string) (sent : option (option string))
    (raw_price : json) (x : float) w :
  dict_lookup "name" kvs = Some (JStr name) →
  dict_lookup "description" kvs = description_json <$> sent →
  dict_lookup "price" kvs = Some raw_price →
  py_float raw_price = Ret x →
  float_isnan x = false →
  let new_id := next_id (products (w_db w)) in
  let r := add_new_product text_of_other (JObj kvs) w in
  r.1 = (Created "Producto creado exitosamente." new_id (JStr name), 201)
  ∧ w_db r.2 =
      {| users := users (w_db w);
         products := products (w_db w) ++
           [ {| prod_id := new_id; prod_name := name;
                prod_description := stored_description sent;
                prod_price := x |} ] |}.
Proof.
  intros Hn Hd Hp Hx Hnan. cbv zeta. unfold add_new_product.
  rewrite (fields_present _ _ _ Hn Hp).
  unfold add_new_product_try. simpl. rewrite Hn, Hd, Hp. simpl. rewrite Hx. simpl.
  unfold add_product.
  destruct sent as [[text|]|]; simpl; rewrite Hnan; done.
Qed.

Lemma create_201_not_nan kvs (name : string) (sent : option (option string))
    (raw_price : json) (x : float) w :
  dict_lookup "name" kvs = Some (JStr name) →
  dict_lookup "description" kvs = description_json <$> sent →
  dict_lookup "price" kvs = Some raw_price →
  py_float raw_price = Ret x →
  (add_new_product text_of_other (JObj kvs) w).1.2 = 201 →
  float_isnan x = false.
Proof.
  intros Hn Hd Hp Hx. unfold add_new_product.
  rewrite (fields_present _ _ _ Hn Hp).
  unfold add_new_product_try. simpl. rewrite Hn, Hd, Hp. simpl. rewrite Hx. simpl.
  unfold add_product.
  destruct sent as [[text|]|]; simpl; destruct (float_isnan x); done.
Qed.

(** C6, amended. When a creation whose name is a string, whose description
    is a string, null or left out, and whose price [float] reads answers
    201, the key in the answer is one no row had, and [get_product_by_id]
    on it returns the row with that key, the submitted name, the submitted
    description (the empty string when left out) and the value [float]
    read from the price (for a string, the parsed number). *)
Theorem create_then_get kvs (name : string) (sent : option (option string))
    (raw_price : json) (x : float) w :
  dict_lookup "name" kvs = Some (JStr name) →
  dict_lookup "description" kvs = description_json <$> sent →
  dict_lookup "price" kvs = Some raw_price →
  py_float raw_price = Ret x →
  let r := add_new_product text_of_other (JObj kvs) w in
  r.1.2 = 201 →
  ∃ new_id,
    let row := {| prod_id := new_id; prod_name := name;
                  prod_description := stored_description sent;
                  prod_price := x |} in
    r.1 = (Created "Producto creado exitosamente." new_id (JStr name), 201)
    ∧ (∀ p, p ∈ products (w_db w) → prod_id p ≠ new_id)
    ∧ get_product_by_id (w_db r.2) new_id = Some row
    ∧ (int64_ok new_id = true →
         Server.get_product_by_id (w_db r.2) new_id = Ret (Some row))
    ∧ (∀ text, raw_price = JStr text → float_of_str text = Some x).
Proof.
  intros Hn Hd Hp Hx. cbv zeta. intros H201.
  pose proof (create_201_not_nan _ _ _ _ _ _ Hn Hd Hp Hx H201) as Hnan.
  destruct (create_succeeds_sent _ _ _ _ _ w Hn Hd Hp Hx Hnan) as (Hr & Hdb).
  exists (next_id (products (w_db w))).
  assert (Hfresh : ∀ p, p ∈ products (w_db w) →
                        prod_id p ≠ next_id (products (w_db w))).
  { intros p Hin. pose proof (next_id_above _ _ Hin). lia. }
  assert (Hget : get_product_by_id
                   (w_db (add_new_product text_of_other (JObj kvs) w).2)
                   (next_id (products (w_db w)))
                 = Some {| prod_id := next_id (products (w_db w));
                           prod_name := name;
                           prod_description := stored_description sent;
                           prod_price := x |}).
  { rewrite Hdb. unfold get_product_by_id. simpl.
    set (q := {| prod_id := next_id (products (w_db w)) |}).
    apply (find_app_new _ q). by apply find_has_id_None. }
  split; [exact Hr|]. split; [exact Hfresh|]. split; [exact Hget|]. split.
  - intros Hok. by rewrite server_get_product_by_id_cases, Hok, Hget.
  - intros text ->. simpl in Hx. destruct (float_of_str text); congruence.
Qed.

(** ** What a request can change *)

Lemma initialize_database_both s :
  is_Some (users_table (initialize_database float_literal s))
  ∧ is_Some (products_table (initialize_database float_literal s)).
Proof.
  apply both_tables_iff. unfold initialize_database.
  destruct (is_db_model_created s _) eqn:Hc; simpl;
    [done | apply create_db_and_tables_tables].
Qed.

Lemma initialize_database_same s :
  is_Some (users_table s) → is_Some (products_table s) →
  initialize_database float_literal s = s.
Proof.
  intros Hu Hp. unfold initialize_database.
  by rewrite (proj2 (both_tables_iff s) (conj Hu Hp)).
Qed.

Lemma store_of_create_all s :
  is_Some (users_table s) → is_Some (products_table s) →
  Server.store_of (create_all s) = s.
Proof.
  destruct s as [us ps]. simpl. intros [u Hu] [q Hq]. by subst us ps.
Qed.

Lemma server_list_products_state page_arg per_page_arg w :
  (Server.list_products page_arg per_page_arg w).2 =
    called (GetProducts (args_get page_arg 1) (args_get per_page_arg 5)) w.
Proof.
  unfold Server.list_products, Server.list_products_try.
  destruct (Server.get_products _ _ _) as [[l t]|e]; [|done].
  destruct (_ && _); [done|]. by destruct (py_floordiv _ _).
Qed.

Lemma server_get_single_product_state i w :
  (Server.get_single_product i w).2 = called (GetProductById i) w.
Proof.
  unfold Server.get_single_product.
  by destruct (Server.get_product_by_id _ _) as [[q|]|e].
Qed.

Lemma server_api_logic_effect (r : api_request) w :
  let w' := (Server.api_logic text_of_other r w).2 in
  w_session w' = w_session w ∧ users (w_db w') = users (w_db w).
Proof.
  destruct r as [pa ppa|i|data|i]; cbv zeta; cbn [Server.api_logic].
  - by rewrite server_list_products_state.
  - by rewrite server_get_single_product_state.
  - destruct (add_new_product_effect text_of_other data w) as (Hs & Hu & _). done.
  - unfold Server.delete_single_product.
    rewrite server_delete_product_cases. destruct (int64_ok i); [|done].
    pose proof (users_delete_product (w_db w) i) as Hu.
    destruct (delete_product (w_db w) i) as [c d']. simpl in *.
    by destruct (c >? 0).
Qed.

Lemma server_route_users (r : request) w :
  users (w_db (Server.route text_of_other r w).2) = users (w_db w).
Proof.
  destruct r as [| |u pw| | |r]; cbn [Server.route].
  - unfold index. by destruct (_ !! _).
  - done.
  - unfold login_post. by destruct (check_user _ _ _).
  - done.
  - unfold dashboard. by destruct (_ !! _).
  - unfold Server.product_api, require_auth. destruct (_ !! _); [|done].
    by destruct (server_api_logic_effect r w).
Qed.

Lemma server_app_store (r : request) st :
  ∃ w', Server.st_store (Server.app text_of_other float_literal r st).2
          = Server.store_of (w_db w')
        ∧ users (w_db w')
          = users (create_all (initialize_database float_literal (Server.st_store st))).
Proof.
  unfold Server.app.
  set (w0 := {| w_session := Server.st_session st;
                w_db := create_all (initialize_database float_literal (Server.st_store st));
                w_calls := Server.st_calls st |}).
  pose proof (server_route_users r w0) as Hu.
  destruct (Server.route text_of_other r w0) as [resp w']. simpl in *.
  by exists w'.
Qed.

Lemma server_app_users (r : request) st :
  let st' := (Server.app text_of_other float_literal r st).2 in
  users_table (Server.st_store st')
    = users_table (initialize_database float_literal (Server.st_store st))
  ∧ is_Some (users_table (Server.st_store st'))
  ∧ is_Some (products_table (Server.st_store st')).
Proof.
  cbv zeta. destruct (server_app_store r st) as (w' & -> & Hu).
  destruct (initialize_database_both (Server.st_store st)) as [[us Hus] _].
  simpl. rewrite Hu. unfold create_all. rewrite Hus. simpl. eauto.
Qed.

Lemma server_run_users_same (rs : list request) st :
  is_Some (users_table (Server.st_store st)) →
  is_Some (products_table (Server.st_store st)) →
  users_table (Server.st_store (Server.run_requests text_of_other float_literal rs st))
    = users_table (Server.st_store st).
Proof.
  revert st. induction rs as [|r rs IH]; intros st Hu Hp; [done|].
  unfold Server.run_requests in *. simpl.
  destruct (server_app_users r st) as (Husers & Hu' & Hp').
  rewrite IH by done. rewrite Husers. by rewrite initialize_database_same.
Qed.

(** The [users] table is written only by the hook when a table is missing:
    after any requests it is what the hook of the first one left, and once
    both tables are there no sequence of requests changes it. *)
Theorem users_never_change (r : request) (rs : list request) st :
  users_table (Server.st_store
                 (Server.run_requests text_of_other float_literal (r :: rs) st))
    = users_table (initialize_database float_literal (Server.st_store st))
  ∧ (is_Some (users_table (Server.st_store st)) →
     is_Some (products_table (Server.st_store st)) →
     users_table (Server.st_store
                    (Server.run_requests text_of_other float_literal (r :: rs) st))
       = users_table (Server.st_store st)).
Proof.
  split.
  - destruct (server_app_users r st) as (Husers & Hu' & Hp').
    change (Server.run_requests text_of_other float_literal (r :: rs) st)
      with (Server.run_requests text_of_other float_literal rs
              (Server.app text_of_other float_literal r st).2).
    by rewrite server_run_users_same.
  - intros Hu Hp. by apply server_run_users_same.
Qed.

(** Beyond what the hook does when a table is missing, only a creation and
    a deletion can change the database file, and they never change the
    session; only a login with the form and a logout can change the
    session, and they never change the file; every other request changes
    neither. *)
Theorem what_a_request_changes (r : request) st :
  let st' := (Server.app text_of_other float_literal r st).2 in
  let s := initialize_database float_literal (Server.st_store st) in
  match r with
  | ReqApi (ApiCreate _) | ReqApi (ApiDelete _) =>
      Server.st_session st' = Server.st_session st
  | ReqLoginPost _ _ | ReqLogout => Server.st_store st' = s
  | _ => Server.st_store st' = s ∧ Server.st_session st' = Server.st_session st
  end.
Proof.
  cbv zeta. unfold Server.app.
  destruct (initialize_database_both (Server.st_store st)) as [Hu Hp].
  pose proof (store_of_create_all _ Hu Hp) as Hstore.
  set (s := initialize_database float_literal (Server.st_store st)) in *.
  set (w0 := {| w_session := Server.st_session st; w_db := create_all s;
                w_calls := Server.st_calls st |}).
  destruct r as [| |u pw| | |r]; cbn [Server.route].
  - unfold index. by destruct (_ !! _).
  - done.
  - unfold login_post. by destruct (check_user _ _ _).
  - done.
  - unfold dashboard. by destruct (_ !! _).
  - unfold Server.product_api, require_auth.
    destruct r as [pa ppa|i|data|i];
      destruct (w_session w0 !! "user_id") eqn:Hs; try done;
      cbn [Server.api_logic].
    + pose proof (server_list_products_state pa ppa w0) as Hst.
      destruct (Server.list_products pa ppa w0) as [resp w']. simpl in *.
      by subst w'.
    + pose proof (server_get_single_product_state i w0) as Hst.
      destruct (Server.get_single_product i w0) as [resp w']. simpl in *.
      by subst w'.
    + destruct (add_new_product_effect text_of_other data w0) as (Hses & _).
      by destruct (add_new_product text_of_other data w0) as [resp w'].
    + destruct (server_api_logic_effect (ApiDelete i) w0) as (Hses & _).
      cbn [Server.api_logic] in Hses.
      by destruct (Server.delete_single_product i w0) as [resp w'].
Qed.

End ServerProperties.

(** * The further properties on concrete requests *)

Lemma seed_ascending : ids_ascending (products seed).
Proof.
  unfold ids_ascending. simpl.
  repeat (constructor; [|repeat constructor; lia]). constructor.
Defined.

Lemma not_an_object : ∀ kvs, @JArr dec [JStr "name"; JStr "price"] ≠ JObj kvs.
Proof. intros kvs. discriminate. Defined.

Example bootstrap_gives_seed :
  store_db (initialize_database dec_literal no_tables) = Some seed.
Proof. reflexivity. Qed.

Lemma create_changes_only_on_201_witness :
  (add_new_product driver_text (JObj [("name", JStr "Pen")]) logged_in).1.2 ≠ 201
  ∧ w_db (add_new_product driver_text (JObj [("name", JStr "Pen")]) logged_in).2
      = seed
  ∧ (add_new_product driver_text pen logged_in).1.2 = 201
  ∧ ∃ p, products (w_db (add_new_product driver_text pen logged_in).2)
           = products seed ++ [p]
         ∧ prod_id p = 8.
Proof.
  pose proof (create_changes_only_on_201 (H := dec_float) driver_text
                (JObj [("name", JStr "Pen")]) logged_in) as (_ & _ & Hsame & _).
  pose proof (create_changes_only_on_201 (H := dec_float) driver_text
                pen logged_in) as (_ & _ & _ & Hadd).
  assert (Hne : (add_new_product driver_text (JObj [("name", JStr "Pen")])
                   logged_in).1.2 ≠ 201) by (vm_compute; discriminate).
  split; [exact Hne|]. split; [exact (Hsame Hne)|].
  split; [reflexivity|]. apply Hadd. reflexivity.
Defined.

Lemma create_needs_an_object_witness :
  (∀ kvs, @JArr dec [JStr "name"; JStr "price"] ≠ JObj kvs)
  ∧ (add_new_product driver_text (JArr [JStr "name"; JStr "price"]) logged_in).2
      = logged_in.
Proof.
  split; [exact not_an_object|].
  apply (create_needs_an_object (H := dec_float) driver_text
           (JArr [JStr "name"; JStr "price"]) logged_in not_an_object).
Defined.

Lemma create_then_delete_restores_witness :
  (add_new_product driver_text pen logged_in).1.2 = 201
  ∧ w_db (delete_single_product 8 (add_new_product driver_text pen logged_in).2).2
      = seed.
Proof.
  split; [reflexivity|].
  apply (create_then_delete_restores (H := dec_float) driver_text pen logged_in).
  reflexivity.
Defined.

Lemma create_keeps_other_rows_witness :
  (add_new_product driver_text pen logged_in).1.2 = 201 ∧ 3 ≠ 8
  ∧ get_product_by_id (w_db (add_new_product driver_text pen logged_in).2) 3
      = get_product_by_id seed 3.
Proof.
  split; [reflexivity|]. split; [lia|].
  apply (create_keeps_other_rows (H := dec_float) driver_text pen logged_in 3);
    [reflexivity | vm_compute; discriminate].
Defined.

Lemma keys_stay_ascending_witness :
  ids_ascending (products seed)
  ∧ ids_ascending
      (products (w_db (run_requests driver_text
                         [ReqApi (ApiDelete 7); ReqApi (ApiCreate pen)] logged_in))).
Proof.
  split; [exact seed_ascending|].
  apply (keys_stay_ascending (H := dec_float) driver_text
           [ReqApi (ApiDelete 7); ReqApi (ApiCreate pen)] logged_in seed_ascending).
Defined.

Lemma listed_product_is_found_witness :
  ids_ascending (products seed)
  ∧ mk_product 6 "Disco Duro Externo" "2TB, USB 3.0" 75 0 ∈ (get_products seed 2 5).1
  ∧ get_product_by_id seed 6
      = Some (mk_product 6 "Disco Duro Externo" "2TB, USB 3.0" 75 0).
Proof.
  assert (Hin : mk_product 6 "Disco Duro Externo" "2TB, USB 3.0" 75 0
                  ∈ (get_products seed 2 5).1) by (apply list_elem_of_here).
  split; [exact seed_ascending|]. split; [exact Hin|].
  apply (listed_product_is_found seed 2 5 _ seed_ascending Hin).
Defined.

Lemma delete_keeps_other_rows_witness :
  ids_ascending (products seed) ∧ (delete_product seed 3).1 = 1
  ∧ S (length (products (delete_product seed 3).2)) = length (products seed)
  ∧ get_product_by_id (delete_product seed 3).2 4 = get_product_by_id seed 4.
Proof.
  pose proof (delete_keeps_other_rows seed 3) as (Hother & Hcount).
  split; [exact seed_ascending|]. split; [reflexivity|]. split.
  - apply Hcount; [exact seed_ascending | reflexivity].
  - apply Hother. lia.
Defined.

Lemma is_db_model_created_iff_witness :
  (∀ tbl, tbl ∈ @nil string → has_table no_tables tbl = true)
  ∧ is_db_model_created no_tables [] = true.
Proof.
  assert (Hall : ∀ tbl, tbl ∈ @nil string → has_table no_tables tbl = true)
    by (intros tbl Ht; inversion Ht).
  split; [exact Hall|].
  apply (proj2 (is_db_model_created_iff no_tables [])). exact Hall.
Defined.

Lemma initialize_database_tables_witness :
  is_Some (users_table (@Build_Store dec (Some [admin]) (Some [])))
  ∧ is_Some (products_table (@Build_Store dec (Some [admin]) (Some [])))
  ∧ initialize_database dec_literal (Build_Store (Some [admin]) (Some []))
      = Build_Store (Some [admin]) (Some []).
Proof.
  assert (Hu : is_Some (users_table (@Build_Store dec (Some [admin]) (Some []))))
    by (eexists; reflexivity).
  assert (Hp : is_Some (products_table (@Build_Store dec (Some [admin]) (Some []))))
    by (eexists; reflexivity).
  split; [exact Hu|]. split; [exact Hp|].
  pose proof (initialize_database_tables dec_literal
                (Build_Store (Some [admin]) (Some []))) as (_ & _ & Hsame).
  exact (Hsame Hu Hp).
Defined.

Lemma create_db_and_tables_keeps_rows_witness :
  default [] (products_table (@Build_Store dec None (Some (drop 5 (products seed)))))
    ≠ []
  ∧ products_table
      (create_db_and_tables dec_literal
         (Build_Store None (Some (drop 5 (products seed)))))
    = Some (drop 5 (products seed)).
Proof.
  assert (Hne : default [] (products_table
                  (@Build_Store dec None (Some (drop 5 (products seed))))) ≠ [])
    by discriminate.
  split; [exact Hne|].
  pose proof (create_db_and_tables_keeps_rows dec_literal
                (Build_Store None (Some (drop 5 (products seed)))))
    as (_ & Hkeep & _).
  exact (Hkeep Hne).
Defined.

Lemma create_db_and_tables_keeps_invariants_witness :
  ∃ d', store_db (create_db_and_tables dec_literal no_tables) = Some d'
        ∧ NoDup (user_username <$> users d')
        ∧ ids_ascending (products d').
Proof.
  destruct (create_db_and_tables_keeps_invariants dec_literal
              no_tables) as (d' & Hd & Hnd & Hasc & _).
  exists d'. split; [exact Hd|]. split.
  - apply Hnd. apply NoDup_nil_2.
  - apply Hasc. constructor.
Defined.

Lemma seeded_admin_logs_in_witness :
  (∀ u, u ∈ users (create_all no_tables) → user_username u ≠ "admin")
  ∧ store_db (create_db_and_tables dec_literal no_tables) = Some seed
  ∧ check_user seed "admin" "password123" = Some 1.
Proof.
  assert (Hno : ∀ u, u ∈ users (create_all no_tables) → user_username u ≠ "admin")
    by (intros u Hu; inversion Hu).
  split; [exact Hno|]. split; [reflexivity|].
  apply (seeded_admin_logs_in dec_literal no_tables seed Hno).
  reflexivity.
Defined.

Lemma redirects_end_after_one_step_witness :
  (app driver_text ReqLogout logged_in).1.1 = Redirect "index"
  ∧ is_Some (endpoint_request (float := dec) "index")
  ∧ is_redirect (follow_redirect driver_text ReqLogout logged_in).1.1 = false.
Proof.
  pose proof (redirects_end_after_one_step (H := dec_float) driver_text
                ReqLogout logged_in) as (Hknown & Hend).
  split; [reflexivity|]. split; [|exact Hend].
  apply Hknown. reflexivity.
Defined.

(** * The service behind the driver on concrete requests *)

Lemma seed_has_no_2_63 :
  ∀ p, p ∈ products seed → prod_id p ≠ 9223372036854775808.
Proof.
  intros p Hp.
  apply (proj1 (find_has_id_None (products seed) 9223372036854775808));
    [|exact Hp].
  reflexivity.
Defined.

(** C2 as stated fails in two places.  On the third page of the seven seed
    rows by five, a page after the first without rows, the answer is the
    404, not a listing with the window, the total and the page count.  On
    the first page with [per_page = 2 ^ 63], the driver refuses the limit
    and the answer is the 500. *)
Lemma list_window_beyond_last_page :
  w_session logged_in !! "user_id" = Some 1
  ∧ 1 ≤ 3 ∧ 1 ≤ 5
  ∧ (Server.product_api driver_text (ApiList (Some 3) (Some 5)) logged_in).1
      = (Message "No hay productos en esta página.", 404)
  ∧ (Server.product_api driver_text (ApiList (Some 3) (Some 5)) logged_in).1
      ≠ listing_of seed 3 5
  ∧ 1 ≤ 1 ∧ 1 ≤ 9223372036854775808
  ∧ Server.get_products seed 1 9223372036854775808 = Raise OverflowError
  ∧ (Server.product_api driver_text
       (ApiList (Some 1) (Some 9223372036854775808)) logged_in).1
      = (Message "Error interno del servidor al listar productos.", 500)
  ∧ (Server.product_api driver_text
       (ApiList (Some 1) (Some 9223372036854775808)) logged_in).1
      ≠ listing_of seed 1 9223372036854775808.
Proof.
  split; [reflexivity|]. split; [lia|]. split; [lia|].
  split; [reflexivity|]. split; [discriminate|].
  split; [lia|]. split; [lia|]. split; [reflexivity|].
  split; [reflexivity|]. discriminate.
Qed.

(** C3 as stated fails on the first page of an empty catalog with
    [per_page = 2 ^ 63]: the driver refuses the limit and the answer is
    the 500, not a 200 with an empty list. *)
Lemma list_empty_catalog_large_limit :
  w_session emptied !! "user_id" = Some 1
  ∧ 1 ≤ 9223372036854775808
  ∧ products (w_db emptied) = []
  ∧ (Server.product_api driver_text
       (ApiList (Some 1) (Some 9223372036854775808)) emptied).1
      = (Message "Error interno del servidor al listar productos.", 500)
  ∧ (Server.product_api driver_text
       (ApiList (Some 1) (Some 9223372036854775808)) emptied).1
      ≠ (Listing [] 0 0 1 9223372036854775808, 200).
Proof.
  split; [reflexivity|]. split; [lia|]. split; [reflexivity|].
  split; [reflexivity|]. discriminate.
Qed.

(** C5 as stated fails at the key [2 ^ 63]: no product has it, yet the
    removal is not answered 404; the driver refuses the key and the answer
    is the 500 of the framework. *)
Lemma remove_key_out_of_range :
  (∀ p, p ∈ products (w_db logged_in) → prod_id p ≠ 9223372036854775808)
  ∧ Server.delete_product seed 9223372036854775808 = Raise OverflowError
  ∧ (Server.delete_single_product 9223372036854775808 logged_in).1
      = (ErrorPage OverflowError, 500)
  ∧ (Server.delete_single_product 9223372036854775808 logged_in).1.2 ≠ 404.
Proof.
  split; [exact seed_has_no_2_63|]. split; [reflexivity|].
  split; [reflexivity|]. simpl. lia.
Qed.

(** C6 as stated fails for a name that is a number: the creation is
    answered 201 with the number 123 as the name, and the row found under
    the new key has the text of the number as its name, not the number. *)
Lemma create_numeric_name :
  (add_new_product driver_text numbered logged_in).1
    = (Created "Producto creado exitosamente." 8 (JInt 123), 201)
  ∧ ∃ p, get_product_by_id
           (w_db (add_new_product driver_text numbered logged_in).2) 8 = Some p
         ∧ prod_name p = "123"
         ∧ @JStr dec (prod_name p) ≠ JInt 123.
Proof.
  split; [reflexivity|]. eexists. split; [reflexivity|].
  split; [reflexivity | discriminate].
Qed.

Lemma list_window_and_pages_witness :
  w_session logged_in !! "user_id" = Some 1 ∧ 1 ≤ 2 ∧ 1 ≤ 5
  ∧ int64_ok 5 = true ∧ int64_ok ((2 - 1) * 5) = true
  ∧ Server.get_products seed 2 5 = Ret (window 2 5 (products seed), 7)
  ∧ (Server.product_api driver_text (ApiList (Some 2) (Some 5)) logged_in).1
      = listing_of seed 2 5.
Proof.
  split; [reflexivity|]. split; [lia|]. split; [lia|].
  split; [reflexivity|]. split; [reflexivity|].
  pose proof (list_window_and_pages (H := dec_float) driver_text logged_in 1 2 5
                eq_refl ltac:(lia) ltac:(lia) eq_refl eq_refl)
    as (Hg & _ & _ & Hr & _).
  split; [exact Hg|]. apply Hr. left. discriminate.
Defined.

Lemma list_empty_page_witness :
  w_session logged_in !! "user_id" = Some 1 ∧ 1 ≤ 5
  ∧ Server.get_products seed 3 5 = Ret ([], 7) ∧ 1 < 3
  ∧ (Server.product_api driver_text (ApiList (Some 3) (Some 5)) logged_in).1
      = (Message "No hay productos en esta página.", 404)
  ∧ products (w_db emptied) = [] ∧ int64_ok 5 = true
  ∧ (Server.product_api driver_text (ApiList (Some 1) (Some 5)) emptied).1
      = (Listing [] 0 0 1 5, 200).
Proof.
  split; [reflexivity|]. split; [lia|]. split; [reflexivity|]. split; [lia|].
  split.
  - pose proof (list_empty_page (H := dec_float) driver_text logged_in 1 3 5
                  eq_refl ltac:(lia)) as (H404 & _).
    apply (H404 7); [reflexivity | lia].
  - split; [reflexivity|]. split; [reflexivity|].
    pose proof (list_empty_page (H := dec_float) driver_text emptied 1 1 5
                  eq_refl ltac:(lia)) as (_ & H200).
    apply H200; reflexivity.
Defined.

Lemma remove_found_or_not_witness :
  int64_ok 9 = true ∧ int64_ok 3 = true
  ∧ (∀ p, p ∈ products (w_db logged_in) → prod_id p ≠ 9)
  ∧ (Server.delete_single_product 9 logged_in).1.2 = 404
  ∧ Server.get_product_by_id
      (w_db (Server.delete_single_product 3 logged_in).2) 3 = Ret None.
Proof.
  split; [reflexivity|]. split; [reflexivity|].
  split; [exact seed_has_no_9|]. split.
  - pose proof (remove_found_or_not logged_in 9 eq_refl) as (_ & _ & Habsent & _).
    apply Habsent. exact seed_has_no_9.
  - pose proof (remove_found_or_not logged_in 3 eq_refl) as (_ & Hgone & _).
    exact Hgone.
Defined.

Lemma create_then_get_witness :
  (add_new_product driver_text pen logged_in).1.2 = 201
  ∧ ∃ new_id,
      (add_new_product driver_text pen logged_in).1
        = (Created "Producto creado exitosamente." new_id (JStr "Pen"), 201)
      ∧ get_product_by_id (w_db (add_new_product driver_text pen logged_in).2) new_id
        = Some {| prod_id := new_id; prod_name := "Pen";
                  prod_description := Some "";
                  prod_price := {| dec_num := 15; dec_scale := 1 |} |}.
Proof.
  split; [reflexivity|].
  destruct (create_then_get (H := dec_float) driver_text
              [("name", JStr "Pen"); ("price", JStr "1.5")] "Pen" None
              (JStr "1.5") {| dec_num := 15; dec_scale := 1 |} logged_in
              eq_refl eq_refl eq_refl ltac:(reflexivity) ltac:(reflexivity))
    as (new_id & Hr & _ & Hg & _).
  exists new_id. split; [exact Hr | exact Hg].
Defined.

Lemma users_never_change_witness :
  is_Some (users_table (Server.st_store seeded))
  ∧ is_Some (products_table (Server.st_store seeded))
  ∧ users_table
      (Server.st_store
         (Server.run_requests driver_text dec_literal
            [ReqLoginPost "admin" "password123"; ReqApi (ApiDelete 1)] seeded))
    = Some [admin]
  ∧ users_table
      (Server.st_store
         (Server.run_requests driver_text dec_literal [ReqIndex] first_visit))
    = Some [admin].
Proof.
  assert (Hu : is_Some (users_table (Server.st_store seeded)))
    by (eexists; reflexivity).
  assert (Hp : is_Some (products_table (Server.st_store seeded)))
    by (eexists; reflexivity).
  split; [exact Hu|]. split; [exact Hp|]. split.
  - pose proof (users_never_change (H := dec_float) driver_text dec_literal
                  (ReqLoginPost "admin" "password123") [ReqApi (ApiDelete 1)] seeded)
      as (_ & Hsame).
    exact (Hsame Hu Hp).
  - pose proof (users_never_change (H := dec_float) driver_text dec_literal
                  ReqIndex [] first_visit) as (Hhook & _).
    exact Hhook.
Defined.

Lemma pages_cover_catalog_witness :
  1 ≤ 3 ∧ int64_ok 3 = true ∧ int64_ok 7 = true
  ∧ ∃ pages,
      Forall2 (λ k l, Server.get_products seed (Z.of_nat k + 1) 3 = Ret (l, 7))
              (seq 0 3) pages
      ∧ concat pages = products seed.
Proof.
  split; [lia|]. split; [reflexivity|]. split; [reflexivity|].
  apply (pages_cover_catalog seed 3); [lia | reflexivity | reflexivity].
Defined.

Lemma list_404_iff_beyond_pages_witness :
  w_session logged_in !! "user_id" = Some 1 ∧ 1 ≤ 4 ∧ 1 ≤ 3
  ∧ int64_ok 3 = true ∧ int64_ok ((4 - 1) * 3) = true
  ∧ ((Server.product_api driver_text (ApiList (Some 4) (Some 3)) logged_in).1.2
       = 404
     ↔ 1 < 4 ∧ ceil_div 7 3 < 4).
Proof.
  split; [reflexivity|]. split; [lia|]. split; [lia|].
  split; [reflexivity|]. split; [reflexivity|].
  apply (list_404_iff_beyond_pages (H := dec_float) driver_text logged_in 1 4 3
           eq_refl ltac:(lia) ltac:(lia) eq_refl eq_refl).
Defined.

Lemma list_unchecked_parameters_witness :
  w_session logged_in !! "user_id" = Some 1
  ∧ int64_ok ((1 - 1) * 9223372036854775808) = true
  ∧ int64_ok 9223372036854775808 = false
  ∧ (Server.product_api driver_text
       (ApiList (Some 1) (Some 9223372036854775808)) logged_in).1
      = (Message "Error interno del servidor al listar productos.", 500)
  ∧ (Server.product_api driver_text (ApiList (Some 2) (Some 0)) logged_in).1
      = (Message "No hay productos en esta página.", 404)
  ∧ (Server.product_api driver_text (ApiList (Some 0) (Some (-1))) logged_in).1.2
      = 200.
Proof.
  split; [reflexivity|]. split; [reflexivity|]. split; [reflexivity|]. split.
  - pose proof (list_unchecked_parameters (H := dec_float) driver_text
                  logged_in 1 1 9223372036854775808 eq_refl) as (H500 & _).
    apply H500. left. reflexivity.
  - split.
    + pose proof (list_unchecked_parameters (H := dec_float) driver_text
                    logged_in 1 2 0 eq_refl) as (_ & H404 & _).
      apply H404; [reflexivity | lia].
    + pose proof (list_unchecked_parameters (H := dec_float) driver_text
                    logged_in 1 0 (-1) eq_refl) as (_ & _ & _ & H200).
      apply H200; [lia | lia | reflexivity | reflexivity].
Defined.

Lemma lookup_found_or_404_witness :
  int64_ok 9 = true
  ∧ (∀ p, p ∈ products (w_db logged_in) → prod_id p ≠ 9)
  ∧ (Server.get_single_product 9 logged_in).1.2 = 404
  ∧ int64_ok 9223372036854775808 = false
  ∧ (Server.get_single_product 9223372036854775808 logged_in).1
      = (ErrorPage OverflowError, 500).
Proof.
  split; [reflexivity|]. split; [exact seed_has_no_9|]. split.
  - pose proof (lookup_found_or_404 logged_in 9) as (_ & _ & _ & Hnone & _).
    apply Hnone; [reflexivity | exact seed_has_no_9].
  - split; [reflexivity|].
    pose proof (lookup_found_or_404 logged_in 9223372036854775808)
      as (_ & _ & _ & _ & Hover).
    apply Hover. reflexivity.
Defined.
